(** * TelegramBot: the Telegram side of the bot core

    A shallow embedding of [bot/core/telegram_bot.py]: client
    initialisation, startup and the run sequence, the registry of plugin
    event handlers, redaction and the [respond] helper.

    Python strings are [string]; attributes of the mixin are fields of the
    record [Bot]; everything the mixin calls but does not define (the
    pyrogram client, the plugin loader, the event dispatcher, the database,
    the clock, the scheduler) is a collaborator whose calls are written to a
    trace. *)

From Stdlib Require Import ZArith Lia.
From stdpp Require Import base option list strings gmap fin_maps.

Open Scope string_scope.
Open Scope list_scope.

(** ** Python strings *)

Module PyStr.

(** [s.startswith(p)] *)
Fixpoint startswith (p s : string) : bool :=
  match p, s with
  | EmptyString, _ => true
  | String _ _, EmptyString => false
  | String a p', String b s' => if Ascii.eqb a b then startswith p' s' else false
  end.

(** [sub in s] *)
Fixpoint contains (sub s : string) : bool :=
  startswith sub s ||
  match s with
  | EmptyString => false
  | String _ s' => contains sub s'
  end.

(** The scan of [s.replace(old, new)], left to right: [skip] characters
    of a match that has just been replaced are still to be dropped. An
    empty [old] matches before every character and at the end. *)
Fixpoint replace_from (old new : string) (skip : nat) (s : string) : string :=
  match s with
  | EmptyString =>
      match skip, old with
      | O, EmptyString => new
      | _, _ => EmptyString
      end
  | String c s' =>
      match skip with
      | S k => replace_from old new k s'
      | O =>
          if startswith old s then
            new +:+
            match String.length old with
            | O => String c (replace_from old new 0 s')
            | S k => replace_from old new k s'
            end
          else String c (replace_from old new 0 s')
      end
  end.

(** [s.replace(old, new)] *)
Definition replace (s old new : string) : string := replace_from old new 0 s.

(** Truth value of a string: [not s] is [negb (truthy s)]. *)
Definition truthy (s : string) : bool :=
  match s with
  | EmptyString => false
  | String _ _ => true
  end.

End PyStr.

(** ** Configuration

    [util.config.TelegramConfig] is not defined in this file; the options
    read here are the five below. Their values are strings, an option that
    is not set being the empty string. *)

Record TelegramConfig := {
  api_id : string;
  api_hash : string;
  bot_token : string;
  db_uri : string;
  owner_id : string
}.

(** ** Redaction *)

Definition REDACTED : string := "[REDACTED]".

(** One [if secret in text: text = text.replace(secret, "[REDACTED]")]. *)
Definition redact_one (secret text : string) : string :=
  if PyStr.contains secret text then PyStr.replace text secret REDACTED else text.

Definition redact_message (config : TelegramConfig) (text : string) : string :=
  let text := redact_one (api_id config) text in
  let text := redact_one (api_hash config) text in
  let text := redact_one (bot_token config) text in
  let text := redact_one (db_uri config) text in
  text.

Example replace_ex1 : PyStr.replace "abcabc" "bc" "X" = "aXaX".
Proof. reflexivity. Qed.
Example replace_ex2 : PyStr.replace "aaa" "aa" "X" = "Xa".
Proof. reflexivity. Qed.
Example replace_ex3 : PyStr.replace "abc" "" "X" = "XaXbXcX".
Proof. reflexivity. Qed.
Example replace_ex4 : PyStr.replace "" "" "X" = "X".
Proof. reflexivity. Qed.
Example replace_ex5 : PyStr.replace "abab" "abc" "X" = "abab".
Proof. reflexivity. Qed.

(** ** Exceptions and outcomes *)

Inductive ExcClass :=
  | BaseException
  | Exception
  | KeyboardInterrupt
  | RuntimeError
  | TypeError
  | ValueError
  | AttributeError
  | DerivedExc (name : string) (base : ExcClass).

#[global] Instance ExcClass_eq_dec : EqDecision ExcClass.
Proof. solve_decision. Defined.

(** The class and its bases, nearest first. *)
Fixpoint mro (c : ExcClass) : list ExcClass :=
  c ::
  match c with
  | BaseException => []
  | Exception | KeyboardInterrupt => [BaseException]
  | RuntimeError | TypeError | ValueError | AttributeError =>
      [Exception; BaseException]
  | DerivedExc _ base => mro base
  end.

Record Exc := mkExc { exc_class : ExcClass; exc_msg : string }.

#[global] Instance Exc_eq_dec : EqDecision Exc.
Proof. solve_decision. Defined.

(** [isinstance(e, c)]: what [except c] catches. *)
Definition isinstance (e : Exc) (c : ExcClass) : bool :=
  bool_decide (c ∈ mro (exc_class e)).

Inductive Outcome (A : Type) :=
  | Return (a : A)
  | Raise (e : Exc).
Arguments Return {A} a.
Arguments Raise {A} e.

(** ** Objects of the client library *)

Record Message := mkMessage { chat_id : Z; message_id : Z }.
Record User := mkUser { user_id : Z }.

Record Client := mkClient {
  session_name : string;
  client_api_id : string;
  client_api_hash : string;
  client_bot_token : string
}.

Inductive Filter :=
  | CommandPredicate
  | ConversationPredicate
  | PluginFilter (n : nat).

Inductive EventType :=
  | CallbackQueryHandler
  | InlineQueryHandler
  | MessageHandler.

(** The callable a handler wraps: the two bound methods of the core, or the
    closure [event_handler] of [update_plugin_event], which forwards the
    update to [dispatch_event(name, event)]. *)
Inductive Callback :=
  | OnCommand
  | OnConversation
  | EventHandler (name : string).

(** A handler object. [h_obj] is the identity of the object: handlers built
    by two calls of a constructor are different objects. *)
Record Handler := mkHandler {
  h_type : EventType;
  h_callback : Callback;
  h_filters : option Filter;
  h_obj : nat
}.

#[global] Instance Message_eq_dec : EqDecision Message.
Proof. solve_decision. Defined.
#[global] Instance Filter_eq_dec : EqDecision Filter.
Proof. solve_decision. Defined.
#[global] Instance EventType_eq_dec : EqDecision EventType.
Proof. solve_decision. Defined.
#[global] Instance Callback_eq_dec : EqDecision Callback.
Proof. solve_decision. Defined.
#[global] Instance Handler_eq_dec : EqDecision Handler.
Proof. solve_decision. Defined.

(** Extra keyword arguments, passed through unchanged. *)
Definition Kwargs := list (string * string).

Inductive Signal := SIGINT | SIGTERM | SIGABRT.

#[global] Instance Signal_eq_dec : EqDecision Signal.
Proof. solve_decision. Defined.

(** ** The bot and the calls it makes *)

Record Bot := mkBot {
  (* Initialized during instantiation *)
  config : TelegramConfig;
  _plugin_event_handlers : gmap string (Handler * Z);
  _disconnect : bool;
  loaded : bool;
  sudo_users : gset Z;
  (* Initialized during startup: absent until then *)
  client : option Client;
  user : option User;
  uid : option Z;
  start_time_us : option Z;
  owner : option Z
}.

(** [__init__] *)
Definition init_bot (cfg : TelegramConfig) : Bot :=
  {| config := cfg;
     _plugin_event_handlers := ∅;
     _disconnect := false;
     loaded := false;
     sudo_users := ∅;
     client := None; user := None; uid := None;
     start_time_us := None; owner := None |}.

(** Assignments to the attributes. *)
Definition with_plugin_event_handlers (m : gmap string (Handler * Z)) (b : Bot) : Bot :=
  mkBot (config b) m (_disconnect b) (loaded b) (sudo_users b)
        (client b) (user b) (uid b) (start_time_us b) (owner b).
Definition with_loaded (v : bool) (b : Bot) : Bot :=
  mkBot (config b) (_plugin_event_handlers b) (_disconnect b) v (sudo_users b)
        (client b) (user b) (uid b) (start_time_us b) (owner b).
Definition with_sudo_users (s : gset Z) (b : Bot) : Bot :=
  mkBot (config b) (_plugin_event_handlers b) (_disconnect b) (loaded b) s
        (client b) (user b) (uid b) (start_time_us b) (owner b).
Definition with_client (c : Client) (b : Bot) : Bot :=
  mkBot (config b) (_plugin_event_handlers b) (_disconnect b) (loaded b) (sudo_users b)
        (Some c) (user b) (uid b) (start_time_us b) (owner b).
Definition with_user (u : User) (b : Bot) : Bot :=
  mkBot (config b) (_plugin_event_handlers b) (_disconnect b) (loaded b) (sudo_users b)
        (client b) (Some u) (uid b) (start_time_us b) (owner b).
Definition with_uid (i : Z) (b : Bot) : Bot :=
  mkBot (config b) (_plugin_event_handlers b) (_disconnect b) (loaded b) (sudo_users b)
        (client b) (user b) (Some i) (start_time_us b) (owner b).
Definition with_start_time_us (t : Z) (b : Bot) : Bot :=
  mkBot (config b) (_plugin_event_handlers b) (_disconnect b) (loaded b) (sudo_users b)
        (client b) (user b) (uid b) (Some t) (owner b).
Definition with_owner (i : Z) (b : Bot) : Bot :=
  mkBot (config b) (_plugin_event_handlers b) (_disconnect b) (loaded b) (sudo_users b)
        (client b) (user b) (uid b) (start_time_us b) (Some i).

(** The client [init_client] builds from the configuration. *)
Definition client_of_config (cfg : TelegramConfig) : Client :=
  mkClient ":memory:" (api_id cfg) (api_hash cfg) (bot_token cfg).

(** Every call that leaves the mixin. *)
Inductive Call :=
  | LogInfo (msg : string)
  | LogWarning (msg : string)
  | LogError (msg : string)
  | AddHandler (h : Handler) (group : Z)
  | RemoveHandler (h : Handler) (group : Z)
  | LoadAllPlugins
  | DispatchEvent (name : string) (args : list Z)
  | ClientStart
  | GetMe
  | DbFind (collection : string)
  | Usec
  | SignalSignal (s : Signal)
  | Print
  | Sleep (seconds : Z)
  | Stop
  | LoopStop
  | Reply (msg : Message) (text : string) (kwargs : Kwargs)
  | Edit (response : Message) (text : string) (kwargs : Kwargs).

#[global] Instance Call_eq_dec : EqDecision Call.
Proof. solve_decision. Defined.

(** A trace entry: the call, and the bot as it was when the call was made. *)
Record Entry := mkEntry { e_call : Call; e_bot : Bot }.

(** ** Collaborators

    What the mixin uses and does not define. [Env] is the state of
    everything outside the mixin; a call reads the bot, may change [Env],
    and returns or raises. *)

Record Collaborators (Env : Type) := {
  (* names of the loaded plugins: the keys of [self.plugins] *)
  plugins : Env -> gset string;
  (* events that have an entry in [self.listeners] *)
  listeners : Env -> gset string;
  command_predicate : Filter;
  conversation_predicate : Filter;
  (* what the constructor [Client(...)] raises on these arguments, if it
     raises: it checks them, [api_id] has to be a number *)
  client_init : Client -> option Exc;
  load_all_plugins : Bot -> Env -> Outcome unit * Env;
  dispatch_event : string -> list Z -> Bot -> Env -> Outcome unit * Env;
  client_start : Bot -> Env -> Outcome unit * Env;
  (* [None]: the object returned is not a [User] *)
  get_me : Bot -> Env -> Outcome (option User) * Env;
  (* the [_id]s the cursor yields, and the failure that ends it early *)
  db_find : string -> Bot -> Env -> (list Z * option Exc) * Env;
  usec : Bot -> Env -> Outcome Z * Env;
  (* the signals delivered while asleep *)
  sleep : Z -> Bot -> Env -> Outcome (list Signal) * Env;
  stop : Bot -> Env -> Outcome unit * Env;
  loop_stop : Bot -> Env -> Outcome unit * Env;
  reply : Message -> string -> Kwargs -> Bot -> Env -> Outcome Message * Env;
  edit : Message -> string -> Kwargs -> Bot -> Env -> Outcome Message * Env;
  (* builtin [int] on a string *)
  int_of_str : string -> Outcome Z;
  (* [signals[signum]] *)
  signal_name : Signal -> string;
  (* [util.tg.truncate] *)
  truncate : string -> string
}.
Arguments plugins {Env} _ _.
Arguments listeners {Env} _ _.
Arguments command_predicate {Env} _.
Arguments conversation_predicate {Env} _.
Arguments client_init {Env} _ _.
Arguments load_all_plugins {Env} _ _ _.
Arguments dispatch_event {Env} _ _ _ _ _.
Arguments client_start {Env} _ _ _.
Arguments get_me {Env} _ _ _.
Arguments db_find {Env} _ _ _ _.
Arguments usec {Env} _ _ _.
Arguments sleep {Env} _ _ _ _.
Arguments stop {Env} _ _ _.
Arguments loop_stop {Env} _ _ _.
Arguments reply {Env} _ _ _ _ _ _.
Arguments edit {Env} _ _ _ _ _ _.
Arguments int_of_str {Env} _ _.
Arguments signal_name {Env} _ _.
Arguments truncate {Env} _ _.

(** ** The world and the monad of the mixin's methods *)

Record World (Env : Type) := mkWorld {
  w_bot : Bot;
  w_env : Env;
  w_trace : list Entry;       (* oldest call first *)
  w_next : nat                (* identity of the next object created *)
}.
Arguments mkWorld {Env} _ _ _ _.
Arguments w_bot {Env} _.
Arguments w_env {Env} _.
Arguments w_trace {Env} _.
Arguments w_next {Env} _.

Definition M (Env A : Type) : Type := World Env -> Outcome A * World Env.

Section Monad.
Context {Env : Type}.

Definition ret {A} (a : A) : M Env A := fun w => (Return a, w).

Definition bind {A B} (m : M Env A) (k : A -> M Env B) : M Env B :=
  fun w =>
    match m w with
    | (Return a, w') => k a w'
    | (Raise e, w') => (Raise e, w')
    end.

Definition raise {A} (e : Exc) : M Env A := fun w => (Raise e, w).

Definition from_outcome {A} (o : Outcome A) : M Env A := fun w => (o, w).

Definition get_bot : M Env Bot := fun w => (Return (w_bot w), w).
Definition get_env : M Env Env := fun w => (Return (w_env w), w).

Definition modify_bot (f : Bot -> Bot) : M Env unit :=
  fun w => (Return tt, mkWorld (f (w_bot w)) (w_env w) (w_trace w) (w_next w)).

(** A call to a collaborator: written to the trace with the bot as it is
    now, then answered by the collaborator. *)
Definition call {A} (c : Call) (f : Bot -> Env -> A * Env) : M Env A :=
  fun w =>
    let '(a, env') := f (w_bot w) (w_env w) in
    (Return a,
     mkWorld (w_bot w) env' (w_trace w ++ [mkEntry c (w_bot w)]) (w_next w)).

(** A call that returns nothing and cannot fail. *)
Definition call_ (c : Call) : M Env unit := call c (fun _ env => (tt, env)).

(** [try: body  except cls: handler(e)] *)
Definition try_except {A} (body : M Env A) (cls : ExcClass)
    (handler : Exc -> M Env A) : M Env A :=
  fun w =>
    match body w with
    | (Return a, w') => (Return a, w')
    | (Raise e, w') =>
        if isinstance e cls then handler e w' else (Raise e, w')
    end.

(** What is left of outcome [o] after a [finally] block [fin] has run: the
    block's own exception if it raises, [o] otherwise. *)
Definition finalize {A} (o : Outcome A) (fin : M Env unit) : M Env A :=
  fun w =>
    match fin w with
    | (Return _, w') => (o, w')
    | (Raise e, w') => (Raise e, w')
    end.

(** [try: body  finally: fin] *)
Definition try_finally {A} (body : M Env A) (fin : M Env unit) : M Env A :=
  fun w => let '(o, w') := body w in finalize o fin w'.

End Monad.

#[global] Instance M_ret {Env} : MRet (M Env) := @ret Env.
#[global] Instance M_bind {Env} : MBind (M Env) := fun A B k m => bind m k.

(** ** The mixin's methods *)

Section TelegramBot.
Context {Env : Type} (X : Collaborators Env).

Local Abbreviation M := (M Env).

(** A new handler object. *)
Definition new_handler (ty : EventType) (cb : Callback)
    (filters : option Filter) : M Handler :=
  fun w =>
    (Return (mkHandler ty cb filters (w_next w)),
     mkWorld (w_bot w) (w_env w) (w_trace w) (S (w_next w))).

(** Reading [self.client]: the attribute exists once [init_client] has
    assigned it. *)
Definition get_client : M Client :=
  b ← get_bot;
  match client b with
  | Some c => mret c
  | None => raise (mkExc AttributeError "'Bot' object has no attribute 'client'")
  end.

Definition set_client (c : Client) : M unit := modify_bot (with_client c).
Definition set_loaded (v : bool) : M unit := modify_bot (with_loaded v).
Definition set_user (u : User) : M unit := modify_bot (with_user u).
Definition set_uid (i : Z) : M unit := modify_bot (with_uid i).
Definition set_owner (i : Z) : M unit := modify_bot (with_owner i).
Definition set_start_time_us (t : Z) : M unit := modify_bot (with_start_time_us t).

(** [self.sudo_users.add(i)] *)
Definition sudo_users_add (i : Z) : M unit :=
  modify_bot (fun b => with_sudo_users ({[i]} ∪ sudo_users b) b).

Definition set_plugin_event_handlers (m : gmap string (Handler * Z)) : M unit :=
  modify_bot (with_plugin_event_handlers m).

(** [Client(session_name=..., api_id=..., api_hash=..., bot_token=...)]:
    the object holding the arguments, unless the constructor raises. *)
Definition new_client (c : Client) : M Client :=
  match client_init X c with
  | Some e => raise e
  | None => mret c
  end.

Definition init_client : M unit :=
  b ← get_bot;
  let api_id := api_id (config b) in
  if negb (PyStr.truthy api_id) then
    raise (mkExc RuntimeError "API_ID environment variable not set")
  else
  let api_hash := api_hash (config b) in
  if negb (PyStr.truthy api_hash) then
    raise (mkExc RuntimeError "API_HASH environment variable not set")
  else
  let bot_token := bot_token (config b) in
  if PyStr.truthy bot_token then
    (* Initialize Telegram client with gathered parameters *)
    c ← new_client (mkClient ":memory:" api_id api_hash bot_token);
    set_client c
  else
    raise (mkExc RuntimeError "BOT_TOKEN environment variable not set").

(** [self.client.add_handler(h, group)] and
    [self.client.remove_handler(h, group)]: the request is handed to the
    client and the call returns. *)
Definition add_handler (h : Handler) (group : Z) : M unit :=
  _ ← get_client; call_ (AddHandler h group).
Definition remove_handler (h : Handler) (group : Z) : M unit :=
  _ ← get_client; call_ (RemoveHandler h group).

(** The [async for user in db.find(): self.sudo_users.add(user["_id"])]
    loop over what the cursor yields. *)
Fixpoint add_sudoers (ids : list Z) : M unit :=
  match ids with
  | [] => mret tt
  | i :: ids' => sudo_users_add i;; add_sudoers ids'
  end.

Definition start : M unit :=
  call_ (LogInfo "Starting");;
  init_client;;
  (* Register core command handler *)
  h ← new_handler MessageHandler OnCommand (Some (command_predicate X));
  add_handler h (-1);;
  (* Register conversation handler *)
  h ← new_handler MessageHandler OnConversation (Some (conversation_predicate X));
  add_handler h 0;;
  (* Load plugin *)
  o ← call LoadAllPlugins (load_all_plugins X); from_outcome o;;
  o ← call (DispatchEvent "load" []) (dispatch_event X "load" []); from_outcome o;;
  set_loaded true;;
  env ← get_env;
  if negb (bool_decide ("Aria2" ∈ plugins X env)) then
    raise (mkExc RuntimeError "Aria2 websocket is not running, exiting...")
  else
  if negb (bool_decide ("GoogleDrive" ∈ plugins X env)) then
    raise (mkExc RuntimeError "GoogleDrive environment variable needed not set")
  else
  (* Start Telegram client *)
  try_except
    (_ ← get_client; o ← call ClientStart (client_start X); from_outcome o)
    AttributeError
    (fun e =>
       call_ (LogError "Unable to get input for authorization! Make sure all configuration are done before running the bot.");;
       raise e);;
  (* Get info *)
  o ← call GetMe (get_me X);
  u ← from_outcome o;
  match u with
  | None => raise (mkExc TypeError "Missing full self user information")
  | Some u =>
      set_user u;;
      set_uid (user_id u);;
      b ← get_bot;
      i ← from_outcome (int_of_str X (owner_id (config b)));
      set_owner i;;
      (* Get sudoers from db *)
      r ← call (DbFind "sudoers") (db_find X "sudoers");
      add_sudoers r.1;;
      match r.2 with
      | Some e => raise e
      | None =>
          (* Record start time and dispatch start event *)
          o ← call Usec (usec X);
          t ← from_outcome o;
          set_start_time_us t;;
          o ← call (DispatchEvent "start" [t]) (dispatch_event X "start" [t]);
          from_outcome o;;
          call_ (LogInfo "Bot is ready");;
          (* Dispatch final late start event *)
          o ← call (DispatchEvent "started" []) (dispatch_event X "started" []);
          from_outcome o
      end
  end.

(** *** Idling *)

(** [signal_handler]: sets the local flag [disconnect] of [idle]. *)
Definition signal_handler (signum : Signal) : M bool :=
  call_ Print;;
  call_ (LogInfo ("Stop signal received ('" +:+ signal_name X signum +:+ "')."));;
  mret true.

(** The handler runs once for each signal delivered; [disconnect] is the
    flag before them. *)
Fixpoint deliver (sigs : list Signal) (disconnect : bool) : M bool :=
  match sigs with
  | [] => mret disconnect
  | s :: sigs' => d ← signal_handler s; deliver sigs' d
  end.

(** [while not disconnect: await asyncio.sleep(1)], at most [fuel]
    sleeps; [None] when the loop is still running after them. *)
Fixpoint idle_loop (fuel : nat) (disconnect : bool)
    (w : World Env) : option (Outcome unit * World Env) :=
  if disconnect then Some (Return tt, w)
  else
    match fuel with
    | O => None
    | S fuel' =>
        match (o ← call (Sleep 1) (sleep X 1);
               sigs ← from_outcome o;
               deliver sigs disconnect) w with
        | (Return d, w') => idle_loop fuel' d w'
        | (Raise e, w') => Some (Raise e, w')
        end
    end.

Definition idle (fuel : nat) (w : World Env) : option (Outcome unit * World Env) :=
  match (call_ (SignalSignal SIGINT);;
         call_ (SignalSignal SIGTERM);;
         call_ (SignalSignal SIGABRT)) w with
  | (Return _, w') => idle_loop fuel false w'
  | (Raise e, w') => Some (Raise e, w')
  end.

(** *** The run sequence *)

(** The inner [finally]: [stop], then [loop.stop()] whatever [stop] did. *)
Definition teardown : M unit :=
  try_finally
    (o ← call Stop (stop X); from_outcome o)
    (o ← call LoopStop (loop_stop X); from_outcome o).

(** The body of the outer [try]. *)
Definition run_body (fuel : nat) (w : World Env)
    : option (Outcome unit * World Env) :=
  match start w with
  | (Return _, w') =>
      (* Request updates, then idle until disconnected *)
      idle fuel w'
  | (Raise e, w') =>
      if isinstance e KeyboardInterrupt then
        Some ((call_ (LogWarning "Received interrupt while connecting");;
               mret tt) w')
      else Some (Raise e, w')
  end.

Definition run (fuel : nat) (w : World Env) : option (Outcome unit * World Env) :=
  match run_body fuel w with
  | Some (o, w') =>
      (* Make sure we stop when done *)
      Some (finalize o teardown w')
  | None => None
  end.

(** *** The registry of plugin event handlers *)

Definition update_plugin_event (name : string) (event_type : EventType)
    (filters : option Filter) (group : Z) : M unit :=
  env ← get_env;
  b ← get_bot;
  if bool_decide (name ∈ listeners X env) then
    (* Add if there ARE listeners and it's NOT already registered *)
    match _plugin_event_handlers b !! name with
    | None =>
        h ← new_handler event_type (EventHandler name) filters;
        let handler_info := (h, group) in
        add_handler handler_info.1 handler_info.2;;
        b ← get_bot;
        set_plugin_event_handlers (<[name := handler_info]> (_plugin_event_handlers b))
    | Some _ => mret tt
    end
  else
    match _plugin_event_handlers b !! name with
    | Some handler_info =>
        (* Remove if there are NO listeners and it's ALREADY registered *)
        remove_handler handler_info.1 handler_info.2;;
        b ← get_bot;
        set_plugin_event_handlers (delete name (_plugin_event_handlers b))
    | None => mret tt
    end.

(** The call with its defaults: [filters=None], [group=0]. *)
Definition update_plugin_events : M unit :=
  update_plugin_event "callback_query" CallbackQueryHandler None 0;;
  update_plugin_event "inline_query" InlineQueryHandler None 0;;
  update_plugin_event "message" MessageHandler None 0.

Definition events_activated (b : Bot) : nat := size (_plugin_event_handlers b).

(** *** Responding *)

(** The keyword arguments of a call of [respond]; [None] for [mode] and
    [redact] is an argument left out. *)
Record RespondArgs := {
  arg_mode : option string;
  arg_redact : option bool;
  arg_response : option Message;
  arg_kwargs : Kwargs
}.


Definition respond (msg : Message) (text : string) (args : RespondArgs) : M Message :=
  let mode := default "edit" (arg_mode args) in
  let redact := default true (arg_redact args) in
  let response := arg_response args in
  let kwargs := arg_kwargs args in
  b ← get_bot;
  (* Redact sensitive information if enabled and known *)
  let text := if redact then redact_message (config b) text else text in
  (* Truncate messages longer than Telegram's 4096-character length limit *)
  let text := truncate X text in
  (* force reply and as default behaviour if response is None *)
  if String.eqb mode "reply" || (bool_decide (response = None) && String.eqb mode "edit") then
    o ← call (Reply msg text kwargs) (reply X msg text kwargs); from_outcome o
  else
  (* Only accept edit if we already respond the original msg *)
  match response with
  | Some r =>
      if String.eqb mode "edit" then
        o ← call (Edit r text kwargs) (edit X r text kwargs); from_outcome o
      else raise (mkExc ValueError ("Unknown response mode '" +:+ mode +:+ "'"))
  | None => raise (mkExc ValueError ("Unknown response mode '" +:+ mode +:+ "'"))
  end.

End TelegramBot.

(** ** The client's handlers *)

(** Modelled from the spec: the external client, whose code is not part of
    this file, keeps the hooks it was given: [install_hook(hook, priority)]
    adds the pair, [remove_hook(hook, priority)] removes it, and removal is
    keyed by the identity of the hook. *)
Fixpoint remove_first (x : Handler * Z) (l : list (Handler * Z)) : list (Handler * Z) :=
  match l with
  | [] => []
  | y :: l' => if decide (x = y) then l' else y :: remove_first x l'
  end.

Definition client_step (hs : list (Handler * Z)) (c : Call) : list (Handler * Z) :=
  match c with
  | AddHandler h g => hs ++ [(h, g)]
  | RemoveHandler h g => remove_first (h, g) hs
  | _ => hs
  end.

(** The hooks installed on the client after the calls of a trace. *)
Definition client_handlers (t : list Entry) : list (Handler * Z) :=
  fold_left client_step (e_call <$> t) [].

(** The hook forwards to the listeners of event [name]. *)
Definition forwards_to (name : string) (hg : Handler * Z) : Prop :=
  h_callback hg.1 = EventHandler name.

#[global] Instance forwards_to_dec name hg : Decision (forwards_to name hg).
Proof. unfold forwards_to. apply _. Defined.

(** The hook is one of a plugin event, not one of the two core hooks. *)
Definition is_plugin_hook (hg : Handler * Z) : Prop :=
  match h_callback hg.1 with
  | EventHandler _ => True
  | _ => False
  end.

#[global] Instance is_plugin_hook_dec hg : Decision (is_plugin_hook hg).
Proof. unfold is_plugin_hook. destruct (h_callback hg.1); apply _. Defined.

(** ** Sessions *)

Inductive Step (Env : Type) :=
  | DoUpdatePluginEvent (name : string) (event_type : EventType)
      (filters : option Filter) (group : Z)
  | DoUpdatePluginEvents
  (* the collaborators move on: plugins register and drop listeners *)
  | Elsewhere (env : Env).
Arguments DoUpdatePluginEvent {Env} _ _ _ _.
Arguments DoUpdatePluginEvents {Env}.
Arguments Elsewhere {Env} _.

Section Sessions.
Context {Env : Type} (X : Collaborators Env).

Definition fresh_world (cfg : TelegramConfig) (env : Env) : World Env :=
  mkWorld (init_bot cfg) env [] 0.

Definition set_env (env : Env) (w : World Env) : World Env :=
  mkWorld (w_bot w) env (w_trace w) (w_next w).

(** One step of a session; an exception ends the step, not the session. *)
Definition step (w : World Env) (s : Step Env) : World Env :=
  match s with
  | DoUpdatePluginEvent name ty filters group =>
      (update_plugin_event X name ty filters group w).2
  | DoUpdatePluginEvents => (update_plugin_events X w).2
  | Elsewhere env => set_env env w
  end.

Definition steps_from (w : World Env) (steps : list (Step Env)) : World Env :=
  fold_left step steps w.

(** A session: the bot is built and started, and then the registry is
    updated as listeners come and go. *)
Definition session (cfg : TelegramConfig) (env : Env)
    (steps : list (Step Env)) : World Env :=
  steps_from (start X (fresh_world cfg env)).2 steps.

(** The registry table and the client agree: the hooks that forward to an
    event are exactly the binding recorded for it, and the table has as
    many bindings as the client has plugin hooks. *)
Definition registry_consistent (w : World Env) : Prop :=
  (∀ name,
     filter (forwards_to name) (client_handlers (w_trace w)) =
     match _plugin_event_handlers (w_bot w) !! name with
     | Some hg => [hg]
     | None => []
     end) ∧
  length (filter is_plugin_hook (client_handlers (w_trace w))) =
  size (_plugin_event_handlers (w_bot w)).

End Sessions.

(** ** A test double for the collaborators *)

Module Mock.

(** The state of the double: the loaded plugins, the events with
    listeners, and the signals each coming sleep will see. *)
Record Env := mkEnv {
  m_plugins : gset string;
  m_listeners : gset string;
  m_signals : list (list Signal)
}.

Definition ok {A} (a : A) : Bot -> Env -> Outcome A * Env :=
  fun _ env => (Return a, env).

(** A string of decimal digits, one at least. *)
Definition is_digit (a : Ascii.ascii) : bool :=
  let n := Ascii.nat_of_ascii a in (48 <=? n)%nat && (n <=? 57)%nat.

Definition numeric (s : string) : bool :=
  PyStr.truthy s && forallb is_digit (String.list_ascii_of_string s).

(** The constructor of the double's client wants a number for [api_id]. *)
Definition check_client (c : Client) : option Exc :=
  if numeric (client_api_id c) then None
  else Some (mkExc ValueError "invalid literal for int() with base 10").

(** The double; [connect] is what starting the client ends with. *)
Definition collab (connect : Outcome unit) : Collaborators Env :=
  {| plugins := m_plugins;
     listeners := m_listeners;
     command_predicate := CommandPredicate;
     conversation_predicate := ConversationPredicate;
     client_init := check_client;
     load_all_plugins := ok tt;
     dispatch_event := fun _ _ => ok tt;
     client_start := fun _ env => (connect, env);
     get_me := ok (Some (mkUser 99));
     db_find := fun _ _ env => (([7; 42]%Z, None), env);
     usec := ok 1000%Z;
     sleep := fun _ _ env =>
       match m_signals env with
       | [] => (Return [], env)
       | s :: rest => (Return s, mkEnv (m_plugins env) (m_listeners env) rest)
       end;
     stop := ok tt;
     loop_stop := ok tt;
     reply := fun m _ _ => ok (mkMessage (chat_id m) (message_id m + 1));
     edit := fun r _ _ => ok r;
     int_of_str := fun _ => Return 1%Z;
     signal_name := fun s =>
       match s with SIGINT => "SIGINT" | SIGTERM => "SIGTERM" | SIGABRT => "SIGABRT" end;
     truncate := fun s => s |}.

Definition X : Collaborators Env := collab (Return tt).

Definition cfg : TelegramConfig :=
  {| api_id := "12345"; api_hash := "0a1b2c3d"; bot_token := "777:AAbbCC";
     db_uri := "mongodb://db"; owner_id := "1" |}.

Definition env0 : Env :=
  mkEnv {["Aria2"; "GoogleDrive"]} ∅ [[]; [SIGTERM]].

Definition with_listeners (ls : gset string) : Env :=
  mkEnv {["Aria2"; "GoogleDrive"]} ls [].

End Mock.

(** * Properties *)

(** ** Redaction *)

Section Redaction.

Lemma string_length_app (a b : string) :
  String.length (a +:+ b) = String.length a + String.length b.
Proof. induction a as [|c a IH]; simpl; [done | by rewrite IH]. Qed.

(** Replacing the empty string puts [new] before every character and at
    the end. *)
Lemma replace_empty_length (new s : string) :
  String.length (PyStr.replace s "" new) =
  String.length s + (String.length s + 1) * String.length new.
Proof.
  unfold PyStr.replace. induction s as [|c s IH]; simpl.
  - lia.
  - rewrite string_length_app. simpl. rewrite IH. lia.
Qed.

Lemma contains_empty (s : string) : PyStr.contains "" s = true.
Proof. by destruct s. Qed.

Lemma redact_one_empty (text : string) :
  redact_one "" text = PyStr.replace text "" REDACTED.
Proof. unfold redact_one. by rewrite contains_empty. Qed.

Lemma redact_one_empty_changes (text : string) : redact_one "" text <> text.
Proof.
  rewrite redact_one_empty. intros Heq.
  pose proof (replace_empty_length REDACTED text) as Hlen.
  rewrite Heq in Hlen. simpl in Hlen. lia.
Qed.

(** A secret that does not occur in the text leaves it alone. *)
Lemma startswith_false_replace (old new s : string) :
  PyStr.contains old s = false -> PyStr.replace_from old new 0 s = s.
Proof.
  induction s as [|c s IH]; simpl.
  - destruct old; [discriminate | done].
  - intros H. apply orb_false_elim in H as [H1 H2].
    destruct old as [|a old]; [discriminate|].
    rewrite H1. by rewrite IH.
Qed.

Lemma redact_one_absent (secret text : string) :
  PyStr.contains secret text = false -> redact_one secret text = text.
Proof. unfold redact_one. by intros ->. Qed.

End Redaction.

(** A configuration whose storage URI is not set. *)
Definition cfg_no_db_uri : TelegramConfig :=
  {| api_id := "12345"; api_hash := "0a1b2c3d"; bot_token := "777:AAbbCC";
     db_uri := ""; owner_id := "1" |}.

(** C1, as the code has it: a secret whose value is the empty string is not
    skipped. The membership test [db_uri in text] holds for the empty string
    and every text, and the replacement then puts the placeholder before every
    character and at the end: "hi" comes out as
    "[REDACTED]h[REDACTED]i[REDACTED]", and no text at all is left unchanged
    by the redaction step of an empty secret. *)
Theorem redact_message_empty_secret :
  redact_message cfg_no_db_uri "hi" = "[REDACTED]h[REDACTED]i[REDACTED]" /\
  (forall text, redact_one "" text <> text) /\
  (forall cfg text,
     db_uri cfg = "" ->
     PyStr.contains (api_id cfg) text = false ->
     PyStr.contains (api_hash cfg) text = false ->
     PyStr.contains (bot_token cfg) text = false ->
     redact_message cfg text = PyStr.replace text "" REDACTED /\
     redact_message cfg text <> text).
Proof.
  split; [reflexivity|]. split; [apply redact_one_empty_changes|].
  intros cfg text Hdb H1 H2 H3. unfold redact_message.
  rewrite Hdb, (redact_one_absent _ _ H1), (redact_one_absent _ _ H2),
    (redact_one_absent _ _ H3).
  split; [apply redact_one_empty | apply redact_one_empty_changes].
Qed.

(** ** Responding *)

Section Respond.
Context {Env : Type} (X : Collaborators Env).

(** The world after one call [c] answered by [f]: one more trace entry, the
    collaborators' state as [f] left it. *)
Definition after_call {A} (c : Call) (f : Bot -> Env -> A * Env)
    (w : World Env) : World Env :=
  mkWorld (w_bot w) (f (w_bot w) (w_env w)).2
          (w_trace w ++ [mkEntry c (w_bot w)]) (w_next w).

Lemma call_eq {A} (c : Call) (f : Bot -> Env -> A * Env) (w : World Env) :
  call c f w = (Return (f (w_bot w) (w_env w)).1, after_call c f w).
Proof. unfold call, after_call. by destruct (f (w_bot w) (w_env w)). Qed.

Lemma call_outcome_eq {A} (c : Call) (f : Bot -> Env -> Outcome A * Env)
    (w : World Env) :
  (o ← call c f; from_outcome o) w = ((f (w_bot w) (w_env w)).1, after_call c f w).
Proof.
  unfold mbind, M_bind, bind. rewrite call_eq. unfold from_outcome.
  by destruct (f (w_bot w) (w_env w)).1.
Qed.

(** The text [respond] sends: redacted when asked, then truncated. *)
Definition outgoing_text (b : Bot) (redact : bool) (text : string) : string :=
  truncate X (if redact then redact_message (config b) text else text).

Lemma eqb_string_neq (a b : string) : a <> b -> String.eqb a b = false.
Proof. intros H. by apply String.eqb_neq. Qed.

(** The three ways a call of [respond] ends. *)
Lemma respond_reply (w : World Env) msg text args :
  let mode := default "edit" (arg_mode args) in
  let text' := outgoing_text (w_bot w) (default true (arg_redact args)) text in
  let kw := arg_kwargs args in
  mode = "reply" \/ (mode = "edit" /\ arg_response args = None) ->
  respond X msg text args w =
  ((reply X msg text' kw (w_bot w) (w_env w)).1,
   after_call (Reply msg text' kw) (reply X msg text' kw) w).
Proof.
  intros mode text' kw H. unfold respond.
  change (default "edit" (arg_mode args)) with mode.
  unfold mbind, M_bind, bind, get_bot. cbn beta iota.
  change (truncate X _) with text'. fold kw.
  destruct H as [-> | [-> ->]]; cbn;
    apply (call_outcome_eq (Reply msg text' kw)).
Qed.

Lemma respond_edit (w : World Env) msg text args r :
  let mode := default "edit" (arg_mode args) in
  let text' := outgoing_text (w_bot w) (default true (arg_redact args)) text in
  let kw := arg_kwargs args in
  mode = "edit" -> arg_response args = Some r ->
  respond X msg text args w =
  ((edit X r text' kw (w_bot w) (w_env w)).1,
   after_call (Edit r text' kw) (edit X r text' kw) w).
Proof.
  intros mode text' kw Hm Hr. unfold respond.
  change (default "edit" (arg_mode args)) with mode.
  unfold mbind, M_bind, bind, get_bot. cbn beta iota.
  change (truncate X _) with text'. fold kw.
  rewrite Hm, Hr. cbn. apply (call_outcome_eq (Edit r text' kw)).
Qed.

Lemma respond_unknown_mode (w : World Env) msg text args :
  let mode := default "edit" (arg_mode args) in
  mode <> "reply" -> mode <> "edit" ->
  respond X msg text args w =
  (Raise (mkExc ValueError ("Unknown response mode '" +:+ mode +:+ "'")), w).
Proof.
  intros mode H1 H2. unfold respond.
  change (default "edit" (arg_mode args)) with mode.
  unfold mbind, M_bind, bind, get_bot. cbn beta iota.
  rewrite !eqb_string_neq by done.
  rewrite andb_false_r. cbn. by destruct (arg_response args).
Qed.

(** C2: the decision table of [respond]. With mode "reply" the one call
    made is a reply to [msg], whatever the prior response; with mode "edit"
    and no prior response it is a reply to [msg] too; with mode "edit" and
    a prior response [r] the one call made is an edit of [r], and no reply
    is sent; with any other mode the call raises ValueError for the unknown
    mode and makes no call at all: the world is unchanged. *)
Theorem respond_mode_table (w : World Env) (msg : Message) (text : string)
    (args : RespondArgs) :
  let mode := default "edit" (arg_mode args) in
  let text' := outgoing_text (w_bot w) (default true (arg_redact args)) text in
  let kw := arg_kwargs args in
  (mode = "reply" ->
     respond X msg text args w =
     ((reply X msg text' kw (w_bot w) (w_env w)).1,
      after_call (Reply msg text' kw) (reply X msg text' kw) w)) /\
  (mode = "edit" -> arg_response args = None ->
     respond X msg text args w =
     ((reply X msg text' kw (w_bot w) (w_env w)).1,
      after_call (Reply msg text' kw) (reply X msg text' kw) w)) /\
  (forall r, mode = "edit" -> arg_response args = Some r ->
     respond X msg text args w =
     ((edit X r text' kw (w_bot w) (w_env w)).1,
      after_call (Edit r text' kw) (edit X r text' kw) w)) /\
  (mode <> "reply" -> mode <> "edit" ->
     respond X msg text args w =
     (Raise (mkExc ValueError ("Unknown response mode '" +:+ mode +:+ "'")), w)).
Proof.
  intros mode text' kw. repeat split.
  - intros H. apply respond_reply. by left.
  - intros H1 H2. apply respond_reply. by right.
  - intros r. apply respond_edit.
  - apply respond_unknown_mode.
Qed.


End Respond.

(** ** Startup *)

(** The calls made on the way from world [w] to world [w']. *)
Definition calls_since {Env} (w w' : World Env) : list Call :=
  e_call <$> drop (length (w_trace w)) (w_trace w').

Section Startup.
Context {Env : Type} (X : Collaborators Env).

(** Running a sequence: the first computation returns or raises. *)
Lemma mbind_return {A B} (m : M Env A) (k : A -> M Env B) w a w' :
  m w = (Return a, w') -> (m ≫= k) w = k a w'.
Proof. unfold mbind, M_bind, bind. by intros ->. Qed.

Lemma mbind_raise {A B} (m : M Env A) (k : A -> M Env B) w e w' :
  m w = (Raise e, w') -> (m ≫= k) w = (Raise e, w').
Proof. unfold mbind, M_bind, bind. by intros ->. Qed.

Lemma mbind_inv {A B} (m : M Env A) (k : A -> M Env B) w b w' :
  (m ≫= k) w = (Return b, w') ->
  exists a w1, m w = (Return a, w1) /\ k a w1 = (Return b, w').
Proof.
  unfold mbind, M_bind, bind. destruct (m w) as [[a|e] w1]; [eauto | discriminate].
Qed.

Lemma truthy_false (s : string) : PyStr.truthy s = false <-> s = "".
Proof. destruct s; simpl; split; congruence. Qed.

Lemma truthy_true (s : string) : PyStr.truthy s = true <-> s <> "".
Proof. destruct s; simpl; split; congruence. Qed.

(** [init_client] with every credential set: the client is assigned. *)
Lemma init_client_ok (w : World Env) :
  let cfg := config (w_bot w) in
  api_id cfg <> "" -> api_hash cfg <> "" -> bot_token cfg <> "" ->
  client_init X (client_of_config cfg) = None ->
  init_client X w =
  (Return tt,
   mkWorld (with_client (client_of_config cfg) (w_bot w))
           (w_env w) (w_trace w) (w_next w)).
Proof.
  intros cfg H1 H2 H3 Hc. unfold init_client, new_client, mbind, M_bind, bind, get_bot.
  cbn beta iota. fold cfg.
  apply truthy_true in H1, H2, H3. rewrite H1, H2, H3. cbn [negb].
  unfold client_of_config in Hc. fold cfg in Hc. by rewrite Hc.
Qed.

(** [init_client] with a credential missing: the first one missing, in
    the order api_id, api_hash, bot_token, is the one reported, and
    nothing is assigned. *)
Lemma init_client_missing (w : World Env) :
  let cfg := config (w_bot w) in
  (api_id cfg = "" ->
     init_client X w =
     (Raise (mkExc RuntimeError "API_ID environment variable not set"), w)) /\
  (api_id cfg <> "" -> api_hash cfg = "" ->
     init_client X w =
     (Raise (mkExc RuntimeError "API_HASH environment variable not set"), w)) /\
  (api_id cfg <> "" -> api_hash cfg <> "" -> bot_token cfg = "" ->
     init_client X w =
     (Raise (mkExc RuntimeError "BOT_TOKEN environment variable not set"), w)).
Proof.
  intros cfg. unfold init_client, mbind, M_bind, bind, get_bot.
  cbn beta iota. fold cfg. repeat split.
  - intros H. apply truthy_false in H. by rewrite H.
  - intros H1 H2. apply truthy_true in H1. apply truthy_false in H2.
    by rewrite H1, H2.
  - intros H1 H2 H3. apply truthy_true in H1, H2. apply truthy_false in H3.
    by rewrite H1, H2, H3.
Qed.

(** The world once "Starting" has been logged. *)
Definition starting (w : World Env) : World Env :=
  mkWorld (w_bot w) (w_env w)
          (w_trace w ++ [mkEntry (LogInfo "Starting") (w_bot w)]) (w_next w).

(** C6: when one of the three required credentials is empty, [start]
    raises the RuntimeError that names it (the first one missing, in the
    order api_id, api_hash, bot_token). It does so having only logged
    "Starting": no client has been built, and the trace has no call on a
    client, so no connection was attempted. *)
Theorem start_missing_credential (w : World Env) :
  let cfg := config (w_bot w) in
  (api_id cfg = "" ->
     start X w =
     (Raise (mkExc RuntimeError "API_ID environment variable not set"),
      starting w)) /\
  (api_id cfg <> "" -> api_hash cfg = "" ->
     start X w =
     (Raise (mkExc RuntimeError "API_HASH environment variable not set"),
      starting w)) /\
  (api_id cfg <> "" -> api_hash cfg <> "" -> bot_token cfg = "" ->
     start X w =
     (Raise (mkExc RuntimeError "BOT_TOKEN environment variable not set"),
      starting w)) /\
  client (w_bot (starting w)) = client (w_bot w) /\
  calls_since w (starting w) = [LogInfo "Starting"].
Proof.
  intros cfg.
  destruct (init_client_missing (starting w)) as (H1 & H2 & H3).
  assert (Hlog : call_ (LogInfo "Starting") w = (Return tt, starting w))
    by reflexivity.
  unfold start. rewrite (mbind_return _ _ _ _ _ Hlog).
  repeat split.
  - intros H. apply mbind_raise, H1, H.
  - intros Ha Hb. by apply mbind_raise, H2.
  - intros Ha Hb Hc. by apply mbind_raise, H3.
  - unfold calls_since. simpl. by rewrite drop_app_length.
Qed.

(** The two core handlers [start] builds. *)
Definition command_handler (n : nat) : Handler :=
  mkHandler MessageHandler OnCommand (Some (command_predicate X)) n.
Definition conversation_handler (n : nat) : Handler :=
  mkHandler MessageHandler OnConversation (Some (conversation_predicate X)) n.

(** The bot once [init_client] has run. *)
Definition bot_with_client (b : Bot) : Bot :=
  with_client (client_of_config (config b)) b.

(** The trace up to the dispatch of "load". *)
Definition trace_to_load (w : World Env) : list Entry :=
  let b := bot_with_client (w_bot w) in
  w_trace w ++
  [mkEntry (LogInfo "Starting") (w_bot w);
   mkEntry (AddHandler (command_handler (w_next w)) (-1)) b;
   mkEntry (AddHandler (conversation_handler (S (w_next w))) 0) b;
   mkEntry LoadAllPlugins b;
   mkEntry (DispatchEvent "load" []) b].

Ltac step_return :=
  erewrite mbind_return; [| first [reflexivity | eassumption]]; cbn beta.

(** C7: when the credentials are set, the constructor of the client
    returns, and plugin loading and the "load"
    event go through, a mandatory plugin that is not among the loaded
    plugins makes [start] raise a RuntimeError of its own: one message for
    Aria2, another for GoogleDrive. At that point the plugins have been
    loaded, "load" has been dispatched and [loaded] is set, and the trace
    ends with the dispatch of "load": the client has not been started. *)
Theorem start_missing_plugin (w : World Env) (env1 env2 : Env) :
  let cfg := config (w_bot w) in
  let b := bot_with_client (w_bot w) in
  let w' := mkWorld (with_loaded true b) env2 (trace_to_load w) (S (S (w_next w))) in
  api_id cfg <> "" -> api_hash cfg <> "" -> bot_token cfg <> "" ->
  client_init X (client_of_config cfg) = None ->
  load_all_plugins X b (w_env w) = (Return tt, env1) ->
  dispatch_event X "load" [] b env1 = (Return tt, env2) ->
  ("Aria2" ∉ plugins X env2 ->
     start X w =
     (Raise (mkExc RuntimeError "Aria2 websocket is not running, exiting..."), w')) /\
  ("Aria2" ∈ plugins X env2 -> "GoogleDrive" ∉ plugins X env2 ->
     start X w =
     (Raise (mkExc RuntimeError "GoogleDrive environment variable needed not set"), w')) /\
  loaded (w_bot w') = true /\
  calls_since w w' =
    [LogInfo "Starting";
     AddHandler (command_handler (w_next w)) (-1);
     AddHandler (conversation_handler (S (w_next w))) 0;
     LoadAllPlugins;
     DispatchEvent "load" []].
Proof.
  intros cfg b w' Hid Hhash Htok Hci Hload Hdisp.
  subst w' b. unfold trace_to_load, bot_with_client in *.
  unfold start.
  step_return.
  erewrite mbind_return; [| by apply init_client_ok]. cbn beta.
  cbn [w_bot w_env w_trace w_next].
  do 4 step_return.
  cbn [w_bot w_env w_trace w_next].
  erewrite mbind_return; [| apply call_eq].
  unfold after_call. cbn [w_bot w_env w_trace w_next].
  rewrite Hload. cbn [fst snd]. step_return.
  erewrite mbind_return; [| apply call_eq].
  unfold after_call. cbn [w_bot w_env w_trace w_next].
  rewrite Hdisp. cbn [fst snd]. do 3 step_return.
  cbn [w_bot w_env w_trace w_next].
  rewrite <- !app_assoc. cbn [app].
  repeat split.
  - intros H. by rewrite bool_decide_eq_false_2.
  - intros H1 H2.
    by rewrite (bool_decide_eq_true_2 _ H1), bool_decide_eq_false_2.
  - unfold calls_since. cbn [w_trace]. by rewrite drop_app_length.
Qed.

(** *** A startup that succeeds *)

Lemma call_inv {A} (c : Call) (f : Bot -> Env -> A * Env) w a w1 :
  call c f w = (Return a, w1) ->
  a = (f (w_bot w) (w_env w)).1 /\ w1 = after_call c f w.
Proof. rewrite call_eq. by intros [= <- <-]. Qed.

Lemma from_outcome_inv {A} (o : Outcome A) (w : World Env) a w1 :
  from_outcome o w = (Return a, w1) -> o = Return a /\ w1 = w.
Proof. unfold from_outcome. by intros [= -> ->]. Qed.

Lemma call_outcome_inv {A B} (c : Call) (f : Bot -> Env -> Outcome A * Env)
    (k : A -> M Env B) w b w' :
  (o ← call c f; from_outcome o ≫= k) w = (Return b, w') ->
  exists a, (f (w_bot w) (w_env w)).1 = Return a /\
            k a (after_call c f w) = (Return b, w').
Proof.
  intros H. apply mbind_inv in H as (o & w1 & Hc & H).
  apply call_inv in Hc as [-> ->].
  apply mbind_inv in H as (a & w2 & Ho & H).
  apply from_outcome_inv in Ho as [Ho ->]. eauto.
Qed.

(** The handler of [except AttributeError] re-raises: the statement
    returns only if its body does. *)
Lemma try_except_reraise_inv {A} (body : M Env A) cls (h : Exc -> M Env unit)
    w a w' :
  try_except body cls (fun e => h e;; raise e) w = (Return a, w') ->
  body w = (Return a, w').
Proof.
  unfold try_except. destruct (body w) as [[a'|e] w1]; [done|].
  destruct (isinstance e cls); [|done].
  unfold mbind, M_bind, bind, raise. by destruct (h e w1) as [[[]|?] ?].
Qed.

Lemma with_sudo_users_id (b : Bot) : with_sudo_users (sudo_users b) b = b.
Proof. by destruct b. Qed.

Lemma add_sudoers_eq (ids : list Z) (w : World Env) :
  add_sudoers ids w =
  (Return tt,
   mkWorld (with_sudo_users (list_to_set ids ∪ sudo_users (w_bot w)) (w_bot w))
           (w_env w) (w_trace w) (w_next w)).
Proof.
  revert w. induction ids as [|i ids IH]; intros w; simpl.
  - rewrite (left_id_L ∅ (∪)), with_sudo_users_id. by destruct w.
  - erewrite mbind_return; [|reflexivity]. rewrite IH. simpl.
    unfold with_sudo_users at 2. simpl. do 2 f_equal.
    unfold with_sudo_users. simpl. f_equal.
    by rewrite (assoc_L (∪)), (comm_L (∪) (list_to_set ids)).
Qed.

Lemma init_client_inv (w w1 : World Env) :
  init_client X w = (Return tt, w1) ->
  w1 = mkWorld (bot_with_client (w_bot w)) (w_env w) (w_trace w) (w_next w).
Proof.
  unfold init_client, new_client, mbind, M_bind, bind, get_bot. cbn beta iota.
  destruct (PyStr.truthy (api_id _)); [|discriminate].
  destruct (PyStr.truthy (api_hash _)); [|discriminate].
  destruct (PyStr.truthy (bot_token _)); [|discriminate].
  cbn [negb]. destruct (client_init X _); [discriminate|].
  cbn. by intros [= <-].
Qed.

Lemma add_handler_eq (h : Handler) (g : Z) (c : Client) (w : World Env) :
  client (w_bot w) = Some c ->
  add_handler h g w =
  (Return tt,
   mkWorld (w_bot w) (w_env w)
           (w_trace w ++ [mkEntry (AddHandler h g) (w_bot w)]) (w_next w)).
Proof.
  intros Hc. unfold add_handler, get_client, mbind, M_bind, bind, get_bot.
  cbn beta iota. by rewrite Hc.
Qed.

Lemma remove_handler_eq (h : Handler) (g : Z) (c : Client) (w : World Env) :
  client (w_bot w) = Some c ->
  remove_handler h g w =
  (Return tt,
   mkWorld (w_bot w) (w_env w)
           (w_trace w ++ [mkEntry (RemoveHandler h g) (w_bot w)]) (w_next w)).
Proof.
  intros Hc. unfold remove_handler, get_client, mbind, M_bind, bind, get_bot.
  cbn beta iota. by rewrite Hc.
Qed.

(** The whole trace of a startup that succeeds. *)
Lemma start_success (w w' : World Env) :
  start X w = (Return tt, w') ->
  exists (u : User) (i : Z) (ids : list Z) (t : Z) (env_db : Env),
    let b1 := bot_with_client (w_bot w) in
    let b2 := with_loaded true b1 in
    let b3 := with_owner i (with_uid (user_id u) (with_user u b2)) in
    let b4 := with_sudo_users (list_to_set ids ∪ sudo_users (w_bot w)) b3 in
    let b5 := with_start_time_us t b4 in
    w_trace w' =
      (w_trace w ++
      [mkEntry (LogInfo "Starting") (w_bot w);
       mkEntry (AddHandler (command_handler (w_next w)) (-1)) b1;
       mkEntry (AddHandler (conversation_handler (S (w_next w))) 0) b1;
       mkEntry LoadAllPlugins b1;
       mkEntry (DispatchEvent "load" []) b1;
       mkEntry ClientStart b2;
       mkEntry GetMe b2;
       mkEntry (DbFind "sudoers") b3;
       mkEntry Usec b4;
       mkEntry (DispatchEvent "start" [t]) b5;
       mkEntry (LogInfo "Bot is ready") b5;
       mkEntry (DispatchEvent "started" []) b5])%list /\
    w_bot w' = b5 /\
    (db_find X "sudoers" b3 env_db).1 = (ids, None) /\
    loaded b1 = loaded (w_bot w) /\
    loaded b2 = true /\
    sudo_users b5 = list_to_set ids ∪ sudo_users (w_bot w).
Proof.
  unfold start. intros H.
  apply mbind_inv in H as ([] & w1 & Hlog & H).
  injection Hlog as <-.
  apply mbind_inv in H as ([] & w2 & Hinit & H).
  apply init_client_inv in Hinit as ->. cbn [w_bot w_env w_trace w_next] in H.
  apply mbind_inv in H as (h1 & w3 & [= <- <-] & H).
  apply mbind_inv in H as ([] & w4 & [= <-] & H).
  apply mbind_inv in H as (h2 & w5 & [= <- <-] & H).
  apply mbind_inv in H as ([] & w6 & [= <-] & H).
  cbn [w_bot w_env w_trace w_next] in H.
  apply call_outcome_inv in H as ([] & Hload & H).
  apply call_outcome_inv in H as ([] & Hdisp & H).
  apply mbind_inv in H as ([] & w7 & [= <-] & H).
  apply mbind_inv in H as (env & w8 & [= <- <-] & H).
  clear Hload Hdisp.
  unfold after_call in H. cbn [w_bot w_env w_trace w_next] in H.
  destruct (bool_decide ("Aria2" ∈ _)); [|discriminate].
  destruct (bool_decide ("GoogleDrive" ∈ _)); [|discriminate].
  cbn [negb] in H.
  apply mbind_inv in H as ([] & w9 & Hconn & H).
  apply try_except_reraise_inv in Hconn.
  apply mbind_inv in Hconn as (c & w10 & [= <- <-] & Hconn).
  rewrite call_outcome_eq in Hconn. injection Hconn as _ <-.
  apply call_outcome_inv in H as ([u|] & _ & H); [|discriminate].
  apply mbind_inv in H as ([] & w11 & [= <-] & H).
  apply mbind_inv in H as ([] & w12 & [= <-] & H).
  apply mbind_inv in H as (b & w13 & [= <- <-] & H).
  apply mbind_inv in H as (i & w14 & Hint & H).
  apply from_outcome_inv in Hint as [_ ->].
  apply mbind_inv in H as ([] & w15 & [= <-] & H).
  apply mbind_inv in H as ([ids fail] & w16 & Hfind & H).
  apply call_inv in Hfind as [Hfind ->].
  apply mbind_inv in H as ([] & w17 & Hadd & H).
  rewrite add_sudoers_eq in Hadd. injection Hadd as <-.
  cbn [fst snd] in H. destruct fail as [e|]; [discriminate|].
  apply call_outcome_inv in H as (t & _ & H).
  apply mbind_inv in H as ([] & w18 & [= <-] & H).
  apply call_outcome_inv in H as ([] & _ & H).
  apply mbind_inv in H as ([] & w19 & [= <-] & H).
  rewrite call_outcome_eq in H. injection H as _ <-.
  unfold after_call in *. cbn [w_bot w_env w_trace w_next] in *.
  eexists u, i, ids, t, _. cbn zeta.
  split; [by rewrite <- !app_assoc|].
  split; [done|]. split; [symmetry; exact Hfind|]. done.
Qed.

(** The entry is a call of [dispatch_event]. *)
Definition is_dispatch (e : Entry) : Prop :=
  match e_call e with
  | DispatchEvent _ _ => True
  | _ => False
  end.

#[local] Instance is_dispatch_dec e : Decision (is_dispatch e).
Proof. unfold is_dispatch. destruct (e_call e); apply _. Defined.

(** C8: a startup that succeeds has made exactly the twelve calls below, in
    this order, and among them the calls of [dispatch_event] are "load",
    "start" and "started", once each and in that order. "load" is dispatched
    with the bot as [init_client] left it: [loaded] has not been written yet,
    and it is true in every later entry. "start" is dispatched after the
    cursor over the sudoers has been read to its end without failure, with
    every id it yielded in [sudo_users], which is already the set the
    startup ends with. *)
Theorem start_event_order (w w' : World Env) :
  start X w = (Return tt, w') ->
  exists (t : Z) (ids : list Z) (b_load b_db b_start : Bot) (env_db : Env),
    filter is_dispatch (drop (length (w_trace w)) (w_trace w')) =
      [mkEntry (DispatchEvent "load" []) b_load;
       mkEntry (DispatchEvent "start" [t]) b_start;
       mkEntry (DispatchEvent "started" []) b_start] /\
    calls_since w w' =
      [LogInfo "Starting";
       AddHandler (command_handler (w_next w)) (-1);
       AddHandler (conversation_handler (S (w_next w))) 0;
       LoadAllPlugins; DispatchEvent "load" [];
       ClientStart; GetMe; DbFind "sudoers"; Usec;
       DispatchEvent "start" [t]; LogInfo "Bot is ready";
       DispatchEvent "started" []] /\
    b_load = bot_with_client (w_bot w) /\
    loaded b_load = loaded (w_bot w) /\
    loaded b_start = true /\
    mkEntry (DbFind "sudoers") b_db ∈ w_trace w' /\
    (db_find X "sudoers" b_db env_db).1 = (ids, None) /\
    sudo_users b_start = list_to_set ids ∪ sudo_users (w_bot w) /\
    w_bot w' = b_start.
Proof.
  intros Hs.
  apply start_success in Hs as (u & i & ids & t & env_db & Htr & Hb & Hdb & Hl1 & Hl2 & Hsu).
  cbn zeta in *.
  exists t, ids. eexists _, _, _, env_db.
  unfold calls_since. rewrite Htr, drop_app_length.
  split; [reflexivity|]. split; [reflexivity|]. split; [reflexivity|].
  split; [exact Hl1|]. split; [reflexivity|]. split.
  - apply elem_of_app. right. do 7 apply list_elem_of_further.
    apply list_elem_of_here.
  - split; [exact Hdb|]. split; [exact Hsu | exact Hb].
Qed.

End Startup.

(** ** The run sequence *)

Section Run.
Context {Env : Type} (X : Collaborators Env).

(** The world once the teardown has run from [w]: [stop] was called, then
    [loop.stop()]. *)
Definition after_teardown (w : World Env) : World Env :=
  after_call LoopStop (loop_stop X) (after_call Stop (stop X) w).

(** What the teardown itself ends with: the failure of [loop.stop()] if
    it fails, else what [stop] ended with. *)
Definition teardown_outcome (w : World Env) : Outcome unit :=
  match (loop_stop X (w_bot w) (stop X (w_bot w) (w_env w)).2).1 with
  | Raise e => Raise e
  | Return _ => (stop X (w_bot w) (w_env w)).1
  end.

Lemma teardown_eq (w : World Env) :
  teardown X w = (teardown_outcome w, after_teardown w).
Proof.
  unfold teardown, try_finally, finalize, teardown_outcome, after_teardown.
  rewrite !call_outcome_eq. cbn [w_bot w_env after_call fst snd].
  by destruct (loop_stop X _ _).1 as [[]|].
Qed.

Lemma finalize_teardown_eq (o : Outcome unit) (w : World Env) :
  finalize o (teardown X) w =
  (match teardown_outcome w with Return _ => o | Raise e => Raise e end,
   after_teardown w).
Proof. unfold finalize. rewrite teardown_eq. by destruct (teardown_outcome w). Qed.

Lemma calls_since_teardown (w : World Env) :
  calls_since w (after_teardown w) = [Stop; LoopStop].
Proof.
  unfold calls_since, after_teardown, after_call. cbn [w_trace w_bot w_env].
  by rewrite <- app_assoc, drop_app_length.
Qed.

(** The world once the interrupt has been logged. *)
Definition interrupted (w : World Env) : World Env :=
  mkWorld (w_bot w) (w_env w)
    (w_trace w ++ [mkEntry (LogWarning "Received interrupt while connecting") (w_bot w)])
    (w_next w).

Lemma run_body_interrupt (fuel : nat) (w w1 : World Env) (e : Exc) :
  start X w = (Raise e, w1) -> isinstance e KeyboardInterrupt = true ->
  run_body X fuel w = Some (Return tt, interrupted w1).
Proof. unfold run_body. by intros -> ->. Qed.

Lemma run_body_failure (fuel : nat) (w w1 : World Env) (e : Exc) :
  start X w = (Raise e, w1) -> isinstance e KeyboardInterrupt = false ->
  run_body X fuel w = Some (Raise e, w1).
Proof. unfold run_body. by intros -> ->. Qed.

Lemma run_eq (fuel : nat) (w : World Env) :
  run X fuel w =
  match run_body X fuel w with
  | Some (o1, w1) =>
      Some (match teardown_outcome w1 with Return _ => o1 | Raise e => Raise e end,
            after_teardown w1)
  | None => None
  end.
Proof.
  unfold run. destruct (run_body X fuel w) as [[o1 w1]|]; [|done].
  by rewrite finalize_teardown_eq.
Qed.

(** *** Fuel

    A result does not depend on the fuel it was found with, and the loop
    of [idle] ends with the first sleep during which a signal arrives. *)

Lemma idle_loop_fuel (fuel k : nat) (d : bool) (w : World Env) r :
  idle_loop X fuel d w = Some r -> idle_loop X (fuel + k) d w = Some r.
Proof.
  revert d w. induction fuel as [|fuel IH]; intros d w; simpl.
  - destruct d; [|discriminate]. intros <-. by destruct k.
  - destruct d; [done|].
    match goal with
    | |- context [match ?x with _ => _ end] => destruct x as [[d'|e] w1]
    end; [apply IH | done].
Qed.

Lemma run_fuel (fuel k : nat) (w : World Env) r :
  run X fuel w = Some r -> run X (fuel + k) w = Some r.
Proof.
  unfold run, run_body, idle.
  destruct (start X w) as [[[]|e] w1]; [|done].
  match goal with
  | |- context [match ?x with (_, _) => _ end] => destruct x as [[[]|e] w2]
  end; [|done].
  destruct (idle_loop X fuel false w2) as [p|] eqn:Hi; [|discriminate].
  by rewrite (idle_loop_fuel _ k _ _ _ Hi).
Qed.

Lemma deliver_returns (sigs : list Signal) (d : bool) (w : World Env) :
  exists w',
    deliver X sigs d w =
    (Return (match sigs with [] => d | _ :: _ => true end), w').
Proof.
  revert d w. induction sigs as [|s sigs IH]; intros d w; simpl.
  - by eexists.
  - unfold mbind, M_bind, bind. simpl.
    edestruct (IH true) as [w' ->]. exists w'. by destruct sigs.
Qed.

Lemma idle_loop_stops (fuel : nat) (w : World Env) s sigs env' :
  sleep X 1 (w_bot w) (w_env w) = (Return (s :: sigs), env') ->
  exists w', idle_loop X (S fuel) false w = Some (Return tt, w').
Proof.
  intros Hs. simpl.
  erewrite mbind_return; [|apply call_eq]. rewrite Hs. cbn [fst].
  erewrite mbind_return; [|reflexivity].
  edestruct (deliver_returns (s :: sigs) false) as [w' ->].
  exists w'. by destruct fuel.
Qed.

(** C9: on every path out of [run] the teardown runs, [stop] first and
    [loop.stop()] last, the last call of the trace, also when [stop]
    raises. Whatever the body of the outer [try] ends with, [run] ends
    then, with the teardown after it, and the outcome of [run] is the
    body's unless the teardown itself raised, whose exception comes out
    instead. The body ends in one of three ways. [start] returns and
    [idle] ends, normally or not: the body ends as [idle] did. [start]
    raises an exception of class KeyboardInterrupt: it is caught, a warning
    is logged, [idle] is not entered and the body returns normally, so
    [run] returns normally if the teardown does. [start] raises an
    exception of any other class: the body raises it, and [run] raises. As
    long as [run] has not ended, [start] has returned and [idle] is still
    going. *)
Theorem run_always_tears_down (fuel : nat) (w : World Env) :
  (forall w1,
     teardown X w1 = (teardown_outcome w1, after_teardown w1) /\
     w_trace (after_teardown w1) =
       w_trace w1 ++ [mkEntry Stop (w_bot w1); mkEntry LoopStop (w_bot w1)] /\
     calls_since w1 (after_teardown w1) = [Stop; LoopStop] /\
     (forall e, (stop X (w_bot w1) (w_env w1)).1 = Raise e ->
        exists e', teardown_outcome w1 = Raise e' /\
          ((loop_stop X (w_bot w1) (stop X (w_bot w1) (w_env w1)).2).1 = Return tt ->
           e' = e))) /\
  (forall o1 w1, run_body X fuel w = Some (o1, w1) ->
     run X fuel w =
     Some (match teardown_outcome w1 with Return _ => o1 | Raise e => Raise e end,
           after_teardown w1)) /\
  (forall o w', run X fuel w = Some (o, w') ->
     exists o1 w1,
       run_body X fuel w = Some (o1, w1) /\
       w' = after_teardown w1 /\
       calls_since w1 w' = [Stop; LoopStop] /\
       o = match teardown_outcome w1 with Return _ => o1 | Raise e => Raise e end) /\
  (forall w1 o2 w2,
     start X w = (Return tt, w1) -> idle X fuel w1 = Some (o2, w2) ->
     run_body X fuel w = Some (o2, w2) /\
     run X fuel w =
     Some (match teardown_outcome w2 with Return _ => o2 | Raise e => Raise e end,
           after_teardown w2)) /\
  (forall e w1,
     start X w = (Raise e, w1) -> isinstance e KeyboardInterrupt = true ->
     run_body X fuel w = Some (Return tt, interrupted w1) /\
     calls_since w1 (after_teardown (interrupted w1)) =
       [LogWarning "Received interrupt while connecting"; Stop; LoopStop] /\
     run X fuel w =
     Some (teardown_outcome (interrupted w1), after_teardown (interrupted w1))) /\
  (forall e w1,
     start X w = (Raise e, w1) -> isinstance e KeyboardInterrupt = false ->
     run_body X fuel w = Some (Raise e, w1) /\
     run X fuel w =
     Some (match teardown_outcome w1 with Return _ => Raise e | Raise e' => Raise e' end,
           after_teardown w1)) /\
  (run X fuel w = None <->
   exists w1, start X w = (Return tt, w1) /\ idle X fuel w1 = None).
Proof.
  split; [|split; [|split; [|split; [|split; [|split]]]]].
  - intros w1. split; [apply teardown_eq|]. split.
    { unfold after_teardown, after_call. cbn [w_trace w_bot w_env].
      by rewrite <- app_assoc. }
    split; [apply calls_since_teardown|].
    intros e He. unfold teardown_outcome. rewrite He.
    destruct (loop_stop X _ _).1 as [[]|e2].
    + by exists e.
    + exists e2. split; [done|]. discriminate.
  - intros o1 w1 Hb. by rewrite run_eq, Hb.
  - intros o w'. rewrite run_eq.
    destruct (run_body X fuel w) as [[o1 w1]|]; [|discriminate].
    intros [= <- <-]. exists o1, w1. repeat split.
    apply calls_since_teardown.
  - intros w1 o2 w2 Hs Hi.
    assert (Hb : run_body X fuel w = Some (o2, w2)).
    { unfold run_body. by rewrite Hs. }
    split; [exact Hb|]. by rewrite run_eq, Hb.
  - intros e w1 Hs Hk. split; [by eapply run_body_interrupt|]. split.
    + unfold calls_since, after_teardown, after_call, interrupted.
      cbn [w_trace w_bot w_env].
      by rewrite <- !app_assoc, drop_app_length.
    + rewrite run_eq, (run_body_interrupt _ _ _ _ Hs Hk).
      by destruct (teardown_outcome _) as [[]|].
  - intros e w1 Hs Hk. split; [by eapply run_body_failure|].
    by rewrite run_eq, (run_body_failure _ _ _ _ Hs Hk).
  - rewrite run_eq. unfold run_body.
    destruct (start X w) as [[[]|e] w1] eqn:Hs.
    + destruct (idle X fuel w1) as [[o2 w2]|] eqn:Hi.
      * split; [discriminate|]. intros (w1' & [= <-] & Hn). congruence.
      * split; [|done]. intros _. by exists w1.
    + split.
      * by destruct (isinstance e KeyboardInterrupt).
      * intros (w1' & [=] & _).
Qed.

End Run.

(** ** The registry of plugin event handlers *)

Section ClientHandlers.

Lemma client_handlers_snoc (t : list Entry) (e : Entry) :
  client_handlers (t ++ [e]) = client_step (client_handlers t) (e_call e).
Proof. unfold client_handlers. by rewrite fmap_app, fold_left_app. Qed.

Lemma filter_remove_first_in (P : Handler * Z -> Prop) `{!∀ x, Decision (P x)}
    (x : Handler * Z) (l : list (Handler * Z)) :
  P x -> filter P (remove_first x l) = remove_first x (filter P l).
Proof.
  intros HP. induction l as [|y l IH]; [done|]. simpl.
  destruct (decide (x = y)) as [<-|Hne].
  - rewrite filter_cons_True by done. simpl. by rewrite decide_True.
  - destruct (decide (P y)) as [Hy|Hy].
    + rewrite !filter_cons_True by done. simpl.
      by rewrite decide_False, IH.
    + by rewrite !filter_cons_False.
Qed.

Lemma filter_remove_first_out (P : Handler * Z -> Prop) `{!∀ x, Decision (P x)}
    (x : Handler * Z) (l : list (Handler * Z)) :
  ¬ P x -> filter P (remove_first x l) = filter P l.
Proof.
  intros HP. induction l as [|y l IH]; [done|]. simpl.
  destruct (decide (x = y)) as [<-|Hne].
  - by rewrite filter_cons_False.
  - destruct (decide (P y)) as [Hy|Hy].
    + by rewrite !filter_cons_True, IH.
    + by rewrite !filter_cons_False.
Qed.

Lemma filter_snoc_in (P : Handler * Z -> Prop) `{!∀ x, Decision (P x)}
    (x : Handler * Z) (l : list (Handler * Z)) :
  P x -> filter P (l ++ [x]) = filter P l ++ [x].
Proof. intros HP. by rewrite filter_app, filter_cons_True. Qed.

Lemma filter_snoc_out (P : Handler * Z -> Prop) `{!∀ x, Decision (P x)}
    (x : Handler * Z) (l : list (Handler * Z)) :
  ¬ P x -> filter P (l ++ [x]) = filter P l.
Proof.
  intros HP. by rewrite filter_app, filter_cons_False, filter_nil, app_nil_r.
Qed.

Lemma forwards_to_plugin_hook (name : string) (hg : Handler * Z) :
  forwards_to name hg -> is_plugin_hook hg.
Proof. unfold forwards_to, is_plugin_hook. by intros ->. Qed.

(** The length of a list one element of which is removed. *)
Lemma remove_first_length (x : Handler * Z) (l : list (Handler * Z)) :
  x ∈ l -> S (length (remove_first x l)) = length l.
Proof.
  induction l as [|y l IH]; [by intros ?%elem_of_nil|]. simpl.
  destruct (decide (x = y)) as [|Hne]; [done|].
  intros [?|Hin]%elem_of_cons; [done|]. simpl. by rewrite IH.
Qed.

End ClientHandlers.

Section Registry.
Context {Env : Type} (X : Collaborators Env).

(** The hook [update_plugin_event] builds for event [name]. *)
Definition plugin_handler (name : string) (ty : EventType)
    (filters : option Filter) (n : nat) : Handler :=
  mkHandler ty (EventHandler name) filters n.

(** The world after the hook of [name] was installed. *)
Definition installed (name : string) (ty : EventType) (filters : option Filter)
    (group : Z) (w : World Env) : World Env :=
  let h := plugin_handler name ty filters (w_next w) in
  mkWorld
    (with_plugin_event_handlers
       (<[name := (h, group)]> (_plugin_event_handlers (w_bot w))) (w_bot w))
    (w_env w)
    (w_trace w ++ [mkEntry (AddHandler h group) (w_bot w)])
    (S (w_next w)).

(** The world after the hook recorded as [hg] for [name] was removed. *)
Definition removed (name : string) (hg : Handler * Z) (w : World Env) : World Env :=
  mkWorld
    (with_plugin_event_handlers
       (delete name (_plugin_event_handlers (w_bot w))) (w_bot w))
    (w_env w)
    (w_trace w ++ [mkEntry (RemoveHandler hg.1 hg.2) (w_bot w)])
    (w_next w).

Lemma world_eta (w : World Env) :
  mkWorld (w_bot w) (w_env w) (w_trace w) (w_next w) = w.
Proof. by destruct w. Qed.

Lemma update_plugin_event_install name ty filters group (w : World Env) c :
  name ∈ listeners X (w_env w) ->
  _plugin_event_handlers (w_bot w) !! name = None ->
  client (w_bot w) = Some c ->
  update_plugin_event X name ty filters group w =
  (Return tt, installed name ty filters group w).
Proof.
  intros Hl Ht Hc. unfold update_plugin_event, mbind, M_bind, bind, get_env, get_bot.
  cbn beta iota. rewrite (bool_decide_eq_true_2 _ Hl), Ht.
  unfold new_handler. cbn beta iota.
  erewrite add_handler_eq by exact Hc. done.
Qed.

Lemma update_plugin_event_remove name ty filters group (w : World Env) c hg :
  name ∉ listeners X (w_env w) ->
  _plugin_event_handlers (w_bot w) !! name = Some hg ->
  client (w_bot w) = Some c ->
  update_plugin_event X name ty filters group w =
  (Return tt, removed name hg w).
Proof.
  intros Hl Ht Hc. unfold update_plugin_event, mbind, M_bind, bind, get_env, get_bot.
  cbn beta iota. rewrite (bool_decide_eq_false_2 _ Hl), Ht.
  erewrite remove_handler_eq by exact Hc. done.
Qed.

Lemma update_plugin_event_installed_noop name ty filters group (w : World Env) :
  name ∈ listeners X (w_env w) ->
  is_Some (_plugin_event_handlers (w_bot w) !! name) ->
  update_plugin_event X name ty filters group w = (Return tt, w).
Proof.
  intros Hl [hg Ht]. unfold update_plugin_event, mbind, M_bind, bind, get_env, get_bot.
  cbn beta iota. by rewrite (bool_decide_eq_true_2 _ Hl), Ht.
Qed.

Lemma update_plugin_event_absent_noop name ty filters group (w : World Env) :
  name ∉ listeners X (w_env w) ->
  _plugin_event_handlers (w_bot w) !! name = None ->
  update_plugin_event X name ty filters group w = (Return tt, w).
Proof.
  intros Hl Ht. unfold update_plugin_event, mbind, M_bind, bind, get_env, get_bot.
  cbn beta iota. by rewrite (bool_decide_eq_false_2 _ Hl), Ht.
Qed.

(** Without a client the call raises before anything is installed,
    removed or recorded. *)
Lemma update_plugin_event_no_client name ty filters group (w : World Env) :
  client (w_bot w) = None ->
  w_bot (update_plugin_event X name ty filters group w).2 = w_bot w /\
  w_trace (update_plugin_event X name ty filters group w).2 = w_trace w.
Proof.
  intros Hc. unfold update_plugin_event, mbind, M_bind, bind, get_env, get_bot.
  cbn beta iota.
  destruct (bool_decide _), (_ !! name) as [hg|]; try done;
    unfold new_handler, add_handler, remove_handler, get_client,
      mbind, M_bind, bind, get_bot; cbn beta iota;
    cbn [w_bot]; by rewrite Hc.
Qed.

(** *** What a computation keeps *)

Definition preserves {A} (P : World Env -> Prop) (m : M Env A) : Prop :=
  forall w, P w -> P (m w).2.

Lemma preserves_bind {A B} P (m : M Env A) (k : A -> M Env B) :
  preserves P m -> (forall a, preserves P (k a)) -> preserves P (m ≫= k).
Proof.
  intros Hm Hk w HP. unfold mbind, M_bind, bind.
  specialize (Hm w HP). destruct (m w) as [[a|e] w1]; [|done].
  by apply Hk.
Qed.

Lemma preserves_ret {A} P (a : A) : preserves P (mret a : M Env A).
Proof. by intros w. Qed.

Lemma preserves_raise {A} P e : preserves P (raise e : M Env A).
Proof. by intros w. Qed.

Lemma preserves_from_outcome {A} P (o : Outcome A) : preserves P (from_outcome o).
Proof. by intros w. Qed.

Lemma preserves_get_bot P : preserves P (get_bot : M Env Bot).
Proof. by intros w. Qed.

Lemma preserves_get_env P : preserves P (get_env : M Env Env).
Proof. by intros w. Qed.

Lemma preserves_try_except {A} P (body : M Env A) cls h :
  preserves P body -> (forall e, preserves P (h e)) ->
  preserves P (try_except body cls h).
Proof.
  intros Hb Hh w HP. unfold try_except.
  specialize (Hb w HP). destruct (body w) as [[a|e] w1]; [done|].
  destruct (isinstance e cls); [by apply Hh | done].
Qed.

(** *** The table and the client stay consistent *)

Lemma consistent_ext (w w' : World Env) :
  _plugin_event_handlers (w_bot w') = _plugin_event_handlers (w_bot w) ->
  client_handlers (w_trace w') = client_handlers (w_trace w) ->
  registry_consistent w -> registry_consistent w'.
Proof. unfold registry_consistent. by intros -> ->. Qed.

Lemma consistent_fresh cfg (env : Env) : registry_consistent (fresh_world cfg env).
Proof.
  split; [intros name; cbn [fresh_world init_bot w_bot _plugin_event_handlers] | done].
  by rewrite lookup_empty.
Qed.

Lemma consistent_installed name ty filters group (w : World Env) :
  _plugin_event_handlers (w_bot w) !! name = None ->
  registry_consistent w ->
  registry_consistent (installed name ty filters group w).
Proof.
  intros Hnone [Hname Hsize]. unfold installed. split; cbn [w_bot w_trace].
  - intros name'. rewrite client_handlers_snoc. cbn [client_step e_call].
    cbn [with_plugin_event_handlers _plugin_event_handlers].
    destruct (decide (name = name')) as [<-|Hne].
    + rewrite lookup_insert_eq, filter_snoc_in by done.
      by rewrite Hname, Hnone.
    + rewrite lookup_insert_ne, filter_snoc_out; [apply Hname | | done].
      unfold forwards_to. cbn. congruence.
  - rewrite client_handlers_snoc. cbn [client_step e_call].
    cbn [with_plugin_event_handlers _plugin_event_handlers].
    rewrite filter_snoc_in by done.
    rewrite length_app, map_size_insert_None by done. simpl. lia.
Qed.

Lemma consistent_removed name hg (w : World Env) :
  _plugin_event_handlers (w_bot w) !! name = Some hg ->
  registry_consistent w ->
  registry_consistent (removed name hg w).
Proof.
  intros Hsome [Hname Hsize]. unfold removed.
  assert (Hfw : forwards_to name hg).
  { pose proof (Hname name) as H. rewrite Hsome in H.
    assert (Hin : hg ∈ filter (forwards_to name) (client_handlers (w_trace w)))
      by (rewrite H; apply list_elem_of_here).
    by apply list_elem_of_filter in Hin as [? _]. }
  assert (Hin : hg ∈ filter is_plugin_hook (client_handlers (w_trace w))).
  { pose proof (Hname name) as H. rewrite Hsome in H.
    assert (Hin : hg ∈ filter (forwards_to name) (client_handlers (w_trace w)))
      by (rewrite H; apply list_elem_of_here).
    apply list_elem_of_filter in Hin as [? Hin].
    apply list_elem_of_filter. split; [by eapply forwards_to_plugin_hook | done]. }
  split; cbn [w_bot w_trace].
  - intros name'. rewrite client_handlers_snoc. cbn [client_step e_call].
    cbn [with_plugin_event_handlers _plugin_event_handlers].
    rewrite <- surjective_pairing.
    destruct (decide (name = name')) as [<-|Hne].
    + rewrite lookup_delete_eq, filter_remove_first_in by done.
      rewrite Hname, Hsome. simpl. by rewrite decide_True.
    + rewrite lookup_delete_ne, filter_remove_first_out; [apply Hname | | done].
      unfold forwards_to in *. congruence.
  - rewrite client_handlers_snoc. cbn [client_step e_call].
    cbn [with_plugin_event_handlers _plugin_event_handlers].
    rewrite <- surjective_pairing.
    rewrite filter_remove_first_in by by eapply forwards_to_plugin_hook.
    apply remove_first_length in Hin.
    rewrite map_size_delete_Some by eauto. lia.
Qed.

Lemma preserves_update_plugin_event name ty filters group :
  preserves registry_consistent (update_plugin_event X name ty filters group).
Proof.
  intros w HP.
  destruct (client (w_bot w)) as [c|] eqn:Hc.
  - destruct (decide (name ∈ listeners X (w_env w))) as [Hl|Hl],
      (_plugin_event_handlers (w_bot w) !! name) as [hg|] eqn:Ht.
    + by rewrite update_plugin_event_installed_noop.
    + erewrite update_plugin_event_install by done. by apply consistent_installed.
    + erewrite update_plugin_event_remove by done. by apply consistent_removed.
    + by rewrite update_plugin_event_absent_noop.
  - destruct (update_plugin_event_no_client name ty filters group w Hc) as [Hb Ht].
    eapply consistent_ext; [| |exact HP]; [by rewrite Hb | by rewrite Ht].
Qed.

Lemma preserves_update_plugin_events :
  preserves registry_consistent (update_plugin_events X).
Proof.
  unfold update_plugin_events.
  repeat (apply preserves_bind; [apply preserves_update_plugin_event | intros _]).
  apply preserves_update_plugin_event.
Qed.

(** A call that is neither [add_handler] nor [remove_handler]. *)
Definition not_handler_call (c : Call) : Prop :=
  match c with
  | AddHandler _ _ | RemoveHandler _ _ => False
  | _ => True
  end.

Lemma preserves_call {A} (c : Call) (f : Bot -> Env -> A * Env) :
  not_handler_call c -> preserves registry_consistent (call c f).
Proof.
  intros Hc w HP. rewrite call_eq. cbn [snd]. unfold after_call.
  eapply consistent_ext; [| |exact HP]; cbn [w_bot w_trace]; [done|].
  rewrite client_handlers_snoc. by destruct c.
Qed.

Lemma preserves_modify_bot (f : Bot -> Bot) :
  (forall b, _plugin_event_handlers (f b) = _plugin_event_handlers b) ->
  preserves registry_consistent (modify_bot f).
Proof. intros Hf w HP. eapply consistent_ext; [| |exact HP]; [apply Hf | done]. Qed.

Lemma preserves_new_handler ty cb filters :
  preserves registry_consistent (new_handler ty cb filters).
Proof. intros w HP. by eapply consistent_ext; [| |exact HP]. Qed.

(** Installing a core hook changes neither the table nor the plugin hooks
    of the client. *)
Lemma preserves_add_core (h : Handler) (g : Z) :
  ¬ is_plugin_hook (h, g) ->
  preserves registry_consistent (add_handler h g).
Proof.
  intros Hcore w [Hname Hsize].
  destruct (client (w_bot w)) as [c|] eqn:Hc.
  - erewrite add_handler_eq by exact Hc. split; cbn [snd w_bot w_trace].
    + intros name. rewrite client_handlers_snoc. cbn [client_step e_call].
      rewrite filter_snoc_out; [apply Hname|].
      intros Hf. by apply Hcore, (forwards_to_plugin_hook name).
    + rewrite client_handlers_snoc. cbn [client_step e_call].
      by rewrite filter_snoc_out.
  - unfold add_handler, get_client, mbind, M_bind, bind, get_bot.
    cbn beta iota. by rewrite Hc.
Qed.

Lemma preserves_add_sudoers ids : preserves registry_consistent (add_sudoers ids).
Proof.
  intros w HP. rewrite add_sudoers_eq.
  by eapply consistent_ext; [| |exact HP].
Qed.

Lemma preserves_new_handler_bind {B} ty cb filters (k : Handler -> M Env B) :
  (forall n, preserves registry_consistent (k (mkHandler ty cb filters n))) ->
  preserves registry_consistent (new_handler ty cb filters ≫= k).
Proof.
  intros Hk w HP. unfold mbind, M_bind, bind, new_handler. cbn beta iota.
  apply Hk. by eapply consistent_ext; [| |exact HP].
Qed.

Ltac preserve :=
  repeat first
    [ apply preserves_add_core; exact (fun x => x)
    | apply preserves_new_handler_bind; intros ?
    | apply preserves_bind; [|intros ?]
    | apply preserves_ret
    | apply preserves_raise
    | apply preserves_from_outcome
    | apply preserves_get_bot
    | apply preserves_get_env
    | apply preserves_new_handler
    | apply preserves_add_sudoers
    | apply preserves_call; exact I
    | apply preserves_modify_bot; intros []; reflexivity
    | apply preserves_try_except; [|intros ?]
    | match goal with
      | |- preserves _ (if ?b then _ else _) => destruct b
      | |- preserves _ (match ?x with _ => _ end) => destruct x
      end ].

Lemma preserves_init_client : preserves registry_consistent (init_client X).
Proof. unfold init_client, new_client, set_client. preserve. Qed.

Lemma preserves_start : preserves registry_consistent (start X).
Proof.
  unfold start, call_, get_client, set_loaded, set_user, set_uid, set_owner,
    set_start_time_us.
  apply preserves_bind; [preserve | intros _].
  apply preserves_bind; [apply preserves_init_client | intros _].
  preserve.
Qed.

Lemma consistent_steps_from (w : World Env) (steps : list (Step Env)) :
  registry_consistent w -> registry_consistent (steps_from X w steps).
Proof.
  revert w. induction steps as [|s steps IH]; intros w HP; [done|].
  apply IH. destruct s; cbn [step].
  - by apply preserves_update_plugin_event.
  - by apply preserves_update_plugin_events.
  - by eapply consistent_ext; [| |exact HP].
Qed.

Lemma consistent_session cfg (env : Env) (steps : list (Step Env)) :
  registry_consistent (session X cfg env steps).
Proof.
  apply consistent_steps_from, preserves_start, consistent_fresh.
Qed.

(** *** A binding needs a client

    A property of the bot alone is kept by everything that does not assign
    an attribute. *)

Definition on_bot (Q : Bot -> Prop) (w : World Env) : Prop := Q (w_bot w).

Lemma on_bot_call {A} Q (c : Call) (f : Bot -> Env -> A * Env) :
  preserves (on_bot Q) (call c f).
Proof. intros w HQ. by rewrite call_eq. Qed.

Lemma on_bot_modify Q (f : Bot -> Bot) :
  (forall b, Q b -> Q (f b)) -> preserves (on_bot Q) (modify_bot f).
Proof. intros Hf w HQ. by apply Hf. Qed.

Lemma on_bot_new_handler Q ty cb filters :
  preserves (on_bot Q) (new_handler ty cb filters).
Proof. by intros w HQ. Qed.

Lemma on_bot_add_sudoers Q ids :
  (forall s b, Q b -> Q (with_sudo_users s b)) ->
  preserves (on_bot Q) (add_sudoers ids).
Proof. intros Hs w HQ. rewrite add_sudoers_eq. by apply Hs. Qed.

(** A bot whose table has a binding has a client. *)
Definition bound_has_client (b : Bot) : Prop :=
  _plugin_event_handlers b = ∅ \/ is_Some (client b).

Ltac keep_client :=
  repeat first
    [ apply preserves_bind; [|intros ?]
    | apply preserves_ret
    | apply preserves_raise
    | apply preserves_from_outcome
    | apply preserves_get_bot
    | apply preserves_get_env
    | apply on_bot_new_handler
    | apply on_bot_call
    | apply on_bot_add_sudoers; intros ? [] [?|?]; [by left | by right]
    | apply on_bot_modify; intros [] [?|?]; [by left | by right]
    | apply on_bot_modify; intros [] _; right; by eexists
    | apply preserves_try_except; [|intros ?]
    | match goal with
      | |- preserves _ (if ?b then _ else _) => destruct b
      | |- preserves _ (match ?x with _ => _ end) => destruct x
      end ].

Lemma start_keeps_client : preserves (on_bot bound_has_client) (start X).
Proof.
  unfold start, init_client, new_client, add_handler, call_, get_client, set_client,
    set_loaded, set_user, set_uid, set_owner, set_start_time_us.
  keep_client.
Qed.

Lemma update_plugin_event_keeps_client name ty filters group :
  preserves (on_bot bound_has_client) (update_plugin_event X name ty filters group).
Proof.
  intros w HQ.
  destruct (client (w_bot w)) as [c|] eqn:Hc.
  - assert (Hr : forall w', client (w_bot w') = Some c ->
                            on_bot bound_has_client w').
    { intros w' Hw'. right. by rewrite Hw'. }
    destruct (decide (name ∈ listeners X (w_env w))) as [Hl|Hl],
      (_plugin_event_handlers (w_bot w) !! name) as [hg|] eqn:Ht.
    + by rewrite update_plugin_event_installed_noop.
    + erewrite update_plugin_event_install by done. by apply Hr.
    + erewrite update_plugin_event_remove by done. by apply Hr.
    + by rewrite update_plugin_event_absent_noop.
  - destruct (update_plugin_event_no_client name ty filters group w Hc) as [Hb _].
    unfold on_bot. by rewrite Hb.
Qed.

Lemma session_bound_has_client cfg (env : Env) (steps : list (Step Env)) name hg :
  _plugin_event_handlers (w_bot (session X cfg env steps)) !! name = Some hg ->
  is_Some (client (w_bot (session X cfg env steps))).
Proof.
  assert (H : on_bot bound_has_client (session X cfg env steps)).
  { unfold session.
    assert (H0 : on_bot bound_has_client (start X (fresh_world cfg env)).2)
      by (apply start_keeps_client; by left).
    revert H0. generalize (start X (fresh_world cfg env)).2.
    induction steps as [|s steps IH]; intros w HQ; [done|].
    apply IH. destruct s; cbn [step].
    - by apply update_plugin_event_keeps_client.
    - unfold update_plugin_events.
      revert w HQ. change (preserves (on_bot bound_has_client)
        (update_plugin_event X "callback_query" CallbackQueryHandler None 0;;
         update_plugin_event X "inline_query" InlineQueryHandler None 0;;
         update_plugin_event X "message" MessageHandler None 0)).
      repeat (apply preserves_bind;
              [apply update_plugin_event_keeps_client | intros _]).
      apply update_plugin_event_keeps_client.
    - exact HQ. }
  intros Ht. destruct H as [He|Hc]; [|exact Hc].
  rewrite He, lookup_empty in Ht. discriminate.
Qed.

(** C3: in a session (a fresh bot is started, then come calls of
    [update_plugin_event] and [update_plugin_events], and the collaborators
    changing the listeners in between, in any order and number), the client
    holds at most one hook that forwards to a given event, and it is the
    binding the table records for it. A call for an event that has
    listeners and a binding changes nothing and calls nothing, and so does
    a call for an event that has neither listeners nor a binding. *)
Theorem at_most_one_binding (cfg : TelegramConfig) (env : Env)
    (steps : list (Step Env)) (name : string) :
  let w := session X cfg env steps in
  length (filter (forwards_to name) (client_handlers (w_trace w))) <= 1 /\
  filter (forwards_to name) (client_handlers (w_trace w)) =
    match _plugin_event_handlers (w_bot w) !! name with
    | Some hg => [hg]
    | None => []
    end /\
  (forall w0 ty filters group,
     name ∈ listeners X (w_env w0) ->
     is_Some (_plugin_event_handlers (w_bot w0) !! name) ->
     update_plugin_event X name ty filters group w0 = (Return tt, w0)) /\
  (forall w0 ty filters group,
     name ∉ listeners X (w_env w0) ->
     _plugin_event_handlers (w_bot w0) !! name = None ->
     update_plugin_event X name ty filters group w0 = (Return tt, w0)).
Proof.
  intros w.
  destruct (consistent_session cfg env steps) as [Hname _].
  fold w in Hname. repeat split.
  - rewrite Hname. destruct (_ !! name); simpl; lia.
  - apply Hname.
  - intros. by apply update_plugin_event_installed_noop.
  - intros. by apply update_plugin_event_absent_noop.
Qed.

(** C4: at any point of a session, a call for an event without listeners
    whose binding [hg] is in the table makes one call, [remove_handler] with
    the handler and the group of [hg], and deletes the binding: the event is
    absent from the table again. The pair is the one recorded at install
    time: installing and then removing makes the calls [add_handler(h, g)],
    [remove_handler(h, g)] with the same [h] and [g], whatever event type,
    filters and group the second call is given, and leaves the table as it
    was. *)
Theorem remove_uses_recorded_binding (cfg : TelegramConfig) (env : Env)
    (steps : list (Step Env)) name ty filters group hg :
  let w := session X cfg env steps in
  name ∉ listeners X (w_env w) ->
  _plugin_event_handlers (w_bot w) !! name = Some hg ->
  update_plugin_event X name ty filters group w = (Return tt, removed name hg w) /\
  calls_since w (removed name hg w) = [RemoveHandler hg.1 hg.2] /\
  _plugin_event_handlers (w_bot (removed name hg w)) !! name = None /\
  (forall w0 env' c ty0 filters0 group0,
     name ∈ listeners X (w_env w0) ->
     _plugin_event_handlers (w_bot w0) !! name = None ->
     client (w_bot w0) = Some c ->
     name ∉ listeners X env' ->
     let h := plugin_handler name ty0 filters0 (w_next w0) in
     let w1 := (update_plugin_event X name ty0 filters0 group0 w0).2 in
     let w2 := (update_plugin_event X name ty filters group (set_env env' w1)).2 in
     _plugin_event_handlers (w_bot w1) !! name = Some (h, group0) /\
     calls_since w0 w2 = [AddHandler h group0; RemoveHandler h group0] /\
     _plugin_event_handlers (w_bot w2) = _plugin_event_handlers (w_bot w0)).
Proof.
  intros w Hl Ht.
  destruct (session_bound_has_client cfg env steps name hg Ht) as [c Hc].
  fold w in Hc.
  split; [by eapply update_plugin_event_remove|].
  split; [|split].
  - unfold calls_since, removed. cbn [w_trace]. by rewrite drop_app_length.
  - unfold removed. cbn [w_bot with_plugin_event_handlers _plugin_event_handlers].
    apply lookup_delete_eq.
  - intros w0 env' c0 ty0 filters0 group0 Hl0 Ht0 Hc0 Hl' h w1 w2.
    subst w2 w1. erewrite update_plugin_event_install by done. cbn [snd].
    assert (Hrec : _plugin_event_handlers
              (w_bot (installed name ty0 filters0 group0 w0)) !! name
            = Some (h, group0)) by apply lookup_insert_eq.
    split; [exact Hrec|].
    erewrite (update_plugin_event_remove name ty filters group
                (set_env env' (installed name ty0 filters0 group0 w0)) c0 (h, group0));
      [|done|exact Hrec|done].
    split.
    + unfold calls_since, removed, set_env, installed. cbn [w_trace snd fst].
      by rewrite <- app_assoc, drop_app_length.
    + unfold removed, set_env, installed.
      cbn [snd w_bot with_plugin_event_handlers _plugin_event_handlers].
      by apply delete_insert_id.
Qed.

(** C5, as the code has it: [events_activated] is the number of bindings
    in the table of plugin event handlers, which is the number of plugin
    hooks the client holds, at every point of a session. The two core hooks
    are installed by [start] on the client directly and are not in the
    table: after a startup of a fresh bot that succeeds, the client holds
    two hooks and [events_activated] is 0. *)
Theorem events_activated_counts_plugin_hooks (cfg : TelegramConfig) (env : Env)
    (steps : list (Step Env)) :
  let w := session X cfg env steps in
  events_activated (w_bot w) =
    length (filter is_plugin_hook (client_handlers (w_trace w))) /\
  (forall w', start X (fresh_world cfg env) = (Return tt, w') ->
     length (client_handlers (w_trace w')) = 2 /\
     events_activated (w_bot w') = 0).
Proof.
  intros w. split.
  - destruct (consistent_session cfg env steps) as [_ Hsize].
    symmetry. apply Hsize.
  - intros w' Hs.
    apply start_success in Hs as (u & i & ids & t & envdb & Htr & Hb & _).
    rewrite Htr, Hb. split; reflexivity.
Qed.

End Registry.

(** ** The properties on the test double *)

Module Examples.

Definition w0 : World Mock.Env := fresh_world Mock.cfg Mock.env0.
Definition m : Message := mkMessage 1 10.
Definition r : Message := mkMessage 1 11.

Definition args (mode : string) (response : option Message) : RespondArgs :=
  {| arg_mode := Some mode; arg_redact := None;
     arg_response := response; arg_kwargs := [] |}.

Lemma pair_eta {A B} (p : A * B) (a : A) : p.1 = a -> p = (a, p.2).
Proof. destruct p. simpl. intros ->. reflexivity. Defined.

(** [respond] on each row of its table. *)
Lemma respond_mode_table_witness :
  calls_since w0 (respond Mock.X m "id 12345" (args "reply" (Some r)) w0).2
    = [Reply m "id [REDACTED]" []] /\
  calls_since w0 (respond Mock.X m "id 12345" (args "edit" None) w0).2
    = [Reply m "id [REDACTED]" []] /\
  calls_since w0 (respond Mock.X m "id 12345" (args "edit" (Some r)) w0).2
    = [Edit r "id [REDACTED]" []] /\
  respond Mock.X m "id 12345" (args "delete" (Some r)) w0
    = (Raise (mkExc ValueError "Unknown response mode 'delete'"), w0).
Proof.
  split; [|split; [|split]].
  - rewrite (proj1 (respond_mode_table Mock.X w0 m "id 12345"
                      (args "reply" (Some r))) eq_refl).
    reflexivity.
  - rewrite (proj1 (proj2 (respond_mode_table Mock.X w0 m "id 12345"
                             (args "edit" None))) eq_refl eq_refl).
    reflexivity.
  - rewrite (proj1 (proj2 (proj2 (respond_mode_table Mock.X w0 m "id 12345"
                             (args "edit" (Some r)))))  r eq_refl eq_refl).
    reflexivity.
  - apply (proj2 (proj2 (proj2 (respond_mode_table Mock.X w0 m "id 12345"
                             (args "delete" (Some r)))))); discriminate.
Defined.

Definition cfg_without (field : nat) : TelegramConfig :=
  {| api_id := if decide (field = 0) then "" else "12345";
     api_hash := if decide (field = 1) then "" else "0a1b2c3d";
     bot_token := if decide (field = 2) then "" else "777:AAbbCC";
     db_uri := "mongodb://db"; owner_id := "1" |}.

(** [start] with each of the credentials missing in turn. *)
Lemma start_missing_credential_witness :
  start Mock.X (fresh_world (cfg_without 0) Mock.env0) =
    (Raise (mkExc RuntimeError "API_ID environment variable not set"),
     starting (fresh_world (cfg_without 0) Mock.env0)) /\
  start Mock.X (fresh_world (cfg_without 1) Mock.env0) =
    (Raise (mkExc RuntimeError "API_HASH environment variable not set"),
     starting (fresh_world (cfg_without 1) Mock.env0)) /\
  start Mock.X (fresh_world (cfg_without 2) Mock.env0) =
    (Raise (mkExc RuntimeError "BOT_TOKEN environment variable not set"),
     starting (fresh_world (cfg_without 2) Mock.env0)).
Proof.
  split; [|split].
  - apply (proj1 (start_missing_credential Mock.X
                    (fresh_world (cfg_without 0) Mock.env0))).
    reflexivity.
  - apply (proj1 (proj2 (start_missing_credential Mock.X
                    (fresh_world (cfg_without 1) Mock.env0)))).
    + discriminate.
    + reflexivity.
  - apply (proj1 (proj2 (proj2 (start_missing_credential Mock.X
                    (fresh_world (cfg_without 2) Mock.env0))))).
    + discriminate.
    + discriminate.
    + reflexivity.
Defined.

Definition env_plugins (ps : gset string) : Mock.Env := Mock.mkEnv ps ∅ [].

(** [start] with Aria2 not loaded, and with GoogleDrive not loaded. *)
Lemma start_missing_plugin_witness :
  (start Mock.X (fresh_world Mock.cfg (env_plugins {["GoogleDrive"]}))).1 =
    Raise (mkExc RuntimeError "Aria2 websocket is not running, exiting...") /\
  (start Mock.X (fresh_world Mock.cfg (env_plugins {["Aria2"]}))).1 =
    Raise (mkExc RuntimeError "GoogleDrive environment variable needed not set").
Proof.
  split.
  - rewrite (proj1 (start_missing_plugin Mock.X
              (fresh_world Mock.cfg (env_plugins {["GoogleDrive"]}))
              (env_plugins {["GoogleDrive"]}) (env_plugins {["GoogleDrive"]})
              ltac:(discriminate) ltac:(discriminate) ltac:(discriminate)
              eq_refl eq_refl eq_refl)).
    + reflexivity.
    + refine (bool_decide_eq_false_1 _ _). vm_compute. reflexivity.
  - rewrite (proj1 (proj2 (start_missing_plugin Mock.X
              (fresh_world Mock.cfg (env_plugins {["Aria2"]}))
              (env_plugins {["Aria2"]}) (env_plugins {["Aria2"]})
              ltac:(discriminate) ltac:(discriminate) ltac:(discriminate)
              eq_refl eq_refl eq_refl))).
    + reflexivity.
    + refine (bool_decide_eq_true_1 _ _). vm_compute. reflexivity.
    + refine (bool_decide_eq_false_1 _ _). vm_compute. reflexivity.
Defined.

(** A startup of the double that succeeds. *)
Lemma start_ok : start Mock.X w0 = (Return tt, (start Mock.X w0).2).
Proof. apply pair_eta. vm_compute. reflexivity. Defined.

Lemma start_event_order_witness :
  exists t,
    calls_since w0 (start Mock.X w0).2 =
    [LogInfo "Starting";
     AddHandler (command_handler Mock.X 0) (-1);
     AddHandler (conversation_handler Mock.X 1) 0;
     LoadAllPlugins; DispatchEvent "load" [];
     ClientStart; GetMe; DbFind "sudoers"; Usec;
     DispatchEvent "start" [t]; LogInfo "Bot is ready";
     DispatchEvent "started" []] /\
    sudo_users (w_bot (start Mock.X w0).2) = {[7%Z; 42%Z]}.
Proof.
  destruct (start_event_order Mock.X w0 _ start_ok)
    as (t & ids & b_load & b_db & b_start & env_db & _ & Hcalls & _).
  exists t. split.
  - exact Hcalls.
  - vm_compute. reflexivity.
Defined.

(** The run sequence: the double is stopped by SIGTERM in its second
    sleep; the client raising KeyboardInterrupt when started; the client
    raising a RuntimeError when started; and each of them again with a
    [stop] that raises. *)
Definition interrupt : Exc := mkExc KeyboardInterrupt "".
Definition refused : Exc := mkExc RuntimeError "connection refused".
Definition stop_failed : Exc := mkExc ValueError "stop failed".

(** The double [Y] with a [stop] that raises. *)
Definition failing_stop (Y : Collaborators Mock.Env) : Collaborators Mock.Env :=
  {| plugins := plugins Y;
     listeners := listeners Y;
     command_predicate := command_predicate Y;
     conversation_predicate := conversation_predicate Y;
     client_init := client_init Y;
     load_all_plugins := load_all_plugins Y;
     dispatch_event := dispatch_event Y;
     client_start := client_start Y;
     get_me := get_me Y;
     db_find := db_find Y;
     usec := usec Y;
     sleep := sleep Y;
     stop := fun _ env => (Raise stop_failed, env);
     loop_stop := loop_stop Y;
     reply := reply Y;
     edit := edit Y;
     int_of_str := int_of_str Y;
     signal_name := signal_name Y;
     truncate := truncate Y |}.

(** Where the double is when [idle] has ended. *)
Definition idled (Y : Collaborators Mock.Env) : World Mock.Env :=
  match idle Y 5 (start Y w0).2 with
  | Some p => p.2
  | None => w0
  end.

Lemma run_always_tears_down_witness :
  (run Mock.X 5 w0 = Some (Return tt, after_teardown Mock.X (idled Mock.X)) /\
   calls_since (idled Mock.X) (after_teardown Mock.X (idled Mock.X)) = [Stop; LoopStop]) /\
  run Mock.X 1 w0 = None /\
  run (Mock.collab (Raise interrupt)) 0 w0 =
    Some (Return tt,
          after_teardown (Mock.collab (Raise interrupt))
            (interrupted (start (Mock.collab (Raise interrupt)) w0).2)) /\
  run (Mock.collab (Raise refused)) 0 w0 =
    Some (Raise refused,
          after_teardown (Mock.collab (Raise refused))
            (start (Mock.collab (Raise refused)) w0).2) /\
  (run (failing_stop Mock.X) 5 w0 =
     Some (Raise stop_failed,
           after_teardown (failing_stop Mock.X) (idled (failing_stop Mock.X))) /\
   calls_since (idled (failing_stop Mock.X))
     (after_teardown (failing_stop Mock.X) (idled (failing_stop Mock.X))) =
     [Stop; LoopStop]) /\
  (run (failing_stop (Mock.collab (Raise interrupt))) 0 w0 =
     Some (Raise stop_failed,
           after_teardown (failing_stop (Mock.collab (Raise interrupt)))
             (interrupted (start (failing_stop (Mock.collab (Raise interrupt))) w0).2)) /\
   calls_since (start (failing_stop (Mock.collab (Raise interrupt))) w0).2
     (after_teardown (failing_stop (Mock.collab (Raise interrupt)))
        (interrupted (start (failing_stop (Mock.collab (Raise interrupt))) w0).2)) =
     [LogWarning "Received interrupt while connecting"; Stop; LoopStop]) /\
  run (failing_stop (Mock.collab (Raise refused))) 0 w0 =
    Some (Raise stop_failed,
          after_teardown (failing_stop (Mock.collab (Raise refused)))
            (start (failing_stop (Mock.collab (Raise refused))) w0).2).
Proof.
  split; [|split; [|split; [|split; [|split; [|split]]]]].
  - destruct (proj1 (proj2 (proj2 (proj2 (run_always_tears_down Mock.X 5 w0))))
                (start Mock.X w0).2 (Return tt) (idled Mock.X))
      as (_ & Hrun).
    + apply pair_eta. vm_compute. reflexivity.
    + vm_compute. reflexivity.
    + split; [rewrite Hrun; reflexivity|].
      apply (proj1 (run_always_tears_down Mock.X 5 w0)).
  - apply (proj2 (proj2 (proj2 (proj2 (proj2 (proj2
             (run_always_tears_down Mock.X 1 w0))))))).
    exists (start Mock.X w0).2. split.
    + apply pair_eta. vm_compute. reflexivity.
    + vm_compute. reflexivity.
  - destruct (proj1 (proj2 (proj2 (proj2 (proj2
                (run_always_tears_down (Mock.collab (Raise interrupt)) 0 w0)))))
                interrupt (start (Mock.collab (Raise interrupt)) w0).2)
      as (_ & _ & Hrun).
    + apply pair_eta. vm_compute. reflexivity.
    + reflexivity.
    + rewrite Hrun. reflexivity.
  - destruct (proj1 (proj2 (proj2 (proj2 (proj2 (proj2
                (run_always_tears_down (Mock.collab (Raise refused)) 0 w0))))))
                refused (start (Mock.collab (Raise refused)) w0).2)
      as (_ & Hrun).
    + apply pair_eta. vm_compute. reflexivity.
    + reflexivity.
    + rewrite Hrun. reflexivity.
  - destruct (proj1 (proj2 (proj2 (proj2 (run_always_tears_down (failing_stop Mock.X) 5 w0))))
                (start (failing_stop Mock.X) w0).2 (Return tt) (idled (failing_stop Mock.X)))
      as (_ & Hrun).
    + apply pair_eta. vm_compute. reflexivity.
    + vm_compute. reflexivity.
    + split; [rewrite Hrun; reflexivity|].
      apply (proj1 (run_always_tears_down (failing_stop Mock.X) 5 w0)).
  - destruct (proj1 (proj2 (proj2 (proj2 (proj2
                (run_always_tears_down (failing_stop (Mock.collab (Raise interrupt))) 0 w0)))))
                interrupt (start (failing_stop (Mock.collab (Raise interrupt))) w0).2)
      as (_ & Hcalls & Hrun).
    + apply pair_eta. vm_compute. reflexivity.
    + reflexivity.
    + split; [rewrite Hrun; reflexivity | exact Hcalls].
  - destruct (proj1 (proj2 (proj2 (proj2 (proj2 (proj2
                (run_always_tears_down (failing_stop (Mock.collab (Raise refused))) 0 w0))))))
                refused (start (failing_stop (Mock.collab (Raise refused))) w0).2)
      as (_ & Hrun).
    + apply pair_eta. vm_compute. reflexivity.
    + reflexivity.
    + rewrite Hrun. reflexivity.
Defined.

(** A session: startup, a plugin listens to "message", the events are
    updated twice, the plugin goes away, the events are updated again. *)
Definition listening : list (Step Mock.Env) :=
  [Elsewhere (Mock.with_listeners {["message"]});
   DoUpdatePluginEvents; DoUpdatePluginEvents].

Definition unloading : list (Step Mock.Env) :=
  listening ++ [Elsewhere (Mock.with_listeners ∅)].

Definition message_handler : Handler :=
  plugin_handler "message" MessageHandler None 2.

Lemma at_most_one_binding_witness :
  filter (forwards_to "message")
    (client_handlers (w_trace (session Mock.X Mock.cfg Mock.env0 listening))) =
    [(message_handler, 0%Z)] /\
  update_plugin_event Mock.X "message" MessageHandler None 0
    (session Mock.X Mock.cfg Mock.env0 listening) = (Return tt, session Mock.X Mock.cfg Mock.env0 listening) /\
  update_plugin_event Mock.X "message" MessageHandler None 0 w0 = (Return tt, w0).
Proof.
  destruct (at_most_one_binding Mock.X Mock.cfg Mock.env0 listening "message")
    as (Hle & Heq & Hin & Hout).
  split; [|split].
  - rewrite Heq. vm_compute. reflexivity.
  - apply Hin.
    + refine (bool_decide_eq_true_1 _ _). vm_compute. reflexivity.
    + exists (message_handler, 0%Z). vm_compute. reflexivity.
  - apply Hout.
    + refine (bool_decide_eq_false_1 _ _). vm_compute. reflexivity.
    + vm_compute. reflexivity.
Defined.

Lemma remove_uses_recorded_binding_witness :
  calls_since (session Mock.X Mock.cfg Mock.env0 unloading)
    (update_plugin_event Mock.X "message" CallbackQueryHandler None 5
       (session Mock.X Mock.cfg Mock.env0 unloading)).2 =
    [RemoveHandler message_handler 0] /\
  _plugin_event_handlers
    (w_bot (update_plugin_event Mock.X "message" CallbackQueryHandler None 5
              (session Mock.X Mock.cfg Mock.env0 unloading)).2) !! "message" = None.
Proof.
  destruct (remove_uses_recorded_binding Mock.X Mock.cfg Mock.env0 unloading
              "message" CallbackQueryHandler None 5 (message_handler, 0%Z))
    as (Hrun & Hcalls & Hgone & _).
  - refine (bool_decide_eq_false_1 _ _). vm_compute. reflexivity.
  - vm_compute. reflexivity.
  - rewrite Hrun. split; [exact Hcalls | exact Hgone].
Defined.

Lemma events_activated_counts_plugin_hooks_witness :
  events_activated (w_bot (session Mock.X Mock.cfg Mock.env0 listening)) = 1 /\
  length (client_handlers (w_trace (session Mock.X Mock.cfg Mock.env0 listening))) = 3 /\
  length (client_handlers (w_trace (start Mock.X w0).2)) = 2 /\
  events_activated (w_bot (start Mock.X w0).2) = 0.
Proof.
  destruct (events_activated_counts_plugin_hooks Mock.X Mock.cfg Mock.env0 listening)
    as (Hcount & Hcore).
  split; [|split].
  - rewrite Hcount. vm_compute. reflexivity.
  - vm_compute. reflexivity.
  - apply Hcore. exact start_ok.
Defined.

(** C5, as stated, fails: after a startup that succeeds the client holds
    the two core hooks, and [events_activated] is 0, not 2. *)
Lemma events_activated_omits_core_hooks :
  (start Mock.X w0).1 = Return tt /\
  length (client_handlers (w_trace (start Mock.X w0).2)) = 2 /\
  events_activated (w_bot (start Mock.X w0).2) <>
    length (client_handlers (w_trace (start Mock.X w0).2)).
Proof. vm_compute. repeat split. discriminate. Qed.

Lemma redact_message_empty_secret_witness :
  redact_message cfg_no_db_uri "hi" = PyStr.replace "hi" "" REDACTED /\
  redact_message cfg_no_db_uri "hi" <> "hi".
Proof.
  apply (proj2 (proj2 redact_message_empty_secret) cfg_no_db_uri "hi");
    reflexivity.
Defined.

End Examples.


(** * Further properties *)

(** ** More on the registry *)

Section RegistryMore.
Context {Env : Type} (X : Collaborators Env).

(** The three events [update_plugin_events] looks after. *)
Definition plugin_events : list string :=
  ["callback_query"; "inline_query"; "message"].

(** One call with a client at hand: it returns, the event is bound
    afterwards exactly if it has listeners, and nothing else moves. *)
Lemma update_plugin_event_post name ty filters group (w : World Env) c :
  client (w_bot w) = Some c ->
  let r := update_plugin_event X name ty filters group w in
  r.1 = Return tt /\
  w_env r.2 = w_env w /\
  client (w_bot r.2) = Some c /\
  (is_Some (_plugin_event_handlers (w_bot r.2) !! name) <->
   name ∈ listeners X (w_env w)) /\
  (forall n, n <> name ->
     _plugin_event_handlers (w_bot r.2) !! n = _plugin_event_handlers (w_bot w) !! n).
Proof.
  intros Hc r. subst r.
  destruct (decide (name ∈ listeners X (w_env w))) as [Hl|Hl],
    (_plugin_event_handlers (w_bot w) !! name) as [hg|] eqn:Ht.
  - rewrite update_plugin_event_installed_noop by done. cbn [fst snd].
    rewrite Ht. by repeat split.
  - erewrite update_plugin_event_install by done.
    unfold installed. cbn [fst snd w_bot w_env with_plugin_event_handlers
                           _plugin_event_handlers client].
    repeat split; try done.
    + by rewrite lookup_insert_eq.
    + intros n Hn. by rewrite lookup_insert_ne.
  - erewrite update_plugin_event_remove by done.
    unfold removed. cbn [fst snd w_bot w_env with_plugin_event_handlers
                         _plugin_event_handlers client].
    repeat split; try done.
    + rewrite lookup_delete_eq. by intros [? ?].
    + intros n Hn. by rewrite lookup_delete_ne.
  - rewrite update_plugin_event_absent_noop by done. cbn [fst snd].
    rewrite Ht. by repeat split.
Qed.

Lemma bind_unit_eq {A} (m : M Env unit) (k : M Env A) (w w1 : World Env) :
  m w = (Return tt, w1) -> (m;; k) w = k w1.
Proof. intros H. unfold mbind, M_bind, bind. by rewrite H. Qed.

(** The three calls in a row. *)
Lemma update_plugin_events_post (w : World Env) (c : Client) :
  client (w_bot w) = Some c ->
  let r := update_plugin_events X w in
  r.1 = Return tt /\
  w_env r.2 = w_env w /\
  client (w_bot r.2) = Some c /\
  (forall n, n ∈ plugin_events ->
     (is_Some (_plugin_event_handlers (w_bot r.2) !! n) <->
      n ∈ listeners X (w_env w))) /\
  (forall n, n ∉ plugin_events ->
     _plugin_event_handlers (w_bot r.2) !! n = _plugin_event_handlers (w_bot w) !! n).
Proof.
  intros Hc r. subst r. unfold update_plugin_events.
  destruct (update_plugin_event_post "callback_query" CallbackQueryHandler None 0 w c Hc)
    as (Ho1 & He1 & Hc1 & Hb1 & Hf1).
  destruct (update_plugin_event X "callback_query" CallbackQueryHandler None 0 w)
    as [o1 w1] eqn:Eo1. cbn [fst snd] in *. subst o1.
  rewrite (bind_unit_eq _ _ w w1 Eo1).
  destruct (update_plugin_event_post "inline_query" InlineQueryHandler None 0 w1 c Hc1)
    as (Ho2 & He2 & Hc2 & Hb2 & Hf2).
  destruct (update_plugin_event X "inline_query" InlineQueryHandler None 0 w1)
    as [o2 w2] eqn:Eo2. cbn [fst snd] in *. subst o2.
  rewrite (bind_unit_eq _ _ w1 w2 Eo2).
  destruct (update_plugin_event_post "message" MessageHandler None 0 w2 c Hc2)
    as (Ho3 & He3 & Hc3 & Hb3 & Hf3).
  destruct (update_plugin_event X "message" MessageHandler None 0 w2)
    as [o3 w3]. cbn [fst snd] in *. subst o3.
  split; [done|]. split; [congruence|]. split; [done|]. split.
  - intros n Hn. unfold plugin_events in Hn.
    apply elem_of_cons in Hn as [->|Hn];
      [|apply elem_of_cons in Hn as [->|Hn];
        [|apply list_elem_of_singleton in Hn as ->]].
    + rewrite Hf3, Hf2 by done. exact Hb1.
    + rewrite Hf3 by done. rewrite Hb2. by rewrite He1.
    + rewrite Hb3. by rewrite He2, He1.
  - intros n Hn. unfold plugin_events in Hn.
    rewrite Hf3, Hf2, Hf1; [done|intros ->; apply Hn..].
    + apply list_elem_of_here.
    + apply list_elem_of_further, list_elem_of_here.
    + do 2 apply list_elem_of_further. apply list_elem_of_here.
Qed.

(** X1: with a client at hand, [update_plugin_events] returns normally and
    brings the table in line with the listeners: each of "callback_query",
    "inline_query" and "message" is bound afterwards exactly if it has
    listeners, so the table then binds exactly the listened-to ones among
    the three on top of what it bound for other events before; the
    collaborators' state is left as it was. *)
Theorem update_plugin_events_reconciles (w : World Env) (c : Client) :
  client (w_bot w) = Some c ->
  let r := update_plugin_events X w in
  r.1 = Return tt /\
  w_env r.2 = w_env w /\
  (forall n, n ∈ plugin_events ->
     (is_Some (_plugin_event_handlers (w_bot r.2) !! n) <->
      n ∈ listeners X (w_env w))) /\
  (forall n, n ∉ plugin_events ->
     _plugin_event_handlers (w_bot r.2) !! n = _plugin_event_handlers (w_bot w) !! n) /\
  dom (_plugin_event_handlers (w_bot r.2)) =
    (dom (_plugin_event_handlers (w_bot w)) ∖ list_to_set plugin_events) ∪
    (listeners X (w_env w) ∩ list_to_set plugin_events).
Proof.
  intros Hc r.
  destruct (update_plugin_events_post w c Hc) as (Ho & He & _ & Hin & Hout).
  fold r in Ho, He, Hin, Hout.
  split; [exact Ho|]. split; [exact He|]. split; [exact Hin|]. split; [exact Hout|].
  apply set_eq. intros n.
  rewrite elem_of_union, elem_of_difference, elem_of_intersection,
    !elem_of_dom, elem_of_list_to_set.
  destruct (decide (n ∈ plugin_events)) as [Hn|Hn].
  - rewrite (Hin n Hn). tauto.
  - rewrite (Hout n Hn). tauto.
Qed.

(** A call for an event whose binding already matches its listeners is
    a no-op. *)
Lemma update_plugin_event_settled name ty filters group (w : World Env) :
  (is_Some (_plugin_event_handlers (w_bot w) !! name) <->
   name ∈ listeners X (w_env w)) ->
  update_plugin_event X name ty filters group w = (Return tt, w).
Proof.
  intros Hs. destruct (decide (name ∈ listeners X (w_env w))) as [Hl|Hl].
  - apply update_plugin_event_installed_noop; [done | by apply Hs].
  - apply update_plugin_event_absent_noop; [done|].
    destruct (_ !! name) eqn:Ht; [|done]. exfalso. apply Hl, Hs. by eexists.
Qed.

(** X2: [update_plugin_events] is idempotent: run again right after a run
    with a client at hand, it returns normally, makes no call and changes
    nothing. *)
Theorem update_plugin_events_idempotent (w : World Env) (c : Client) :
  client (w_bot w) = Some c ->
  let w' := (update_plugin_events X w).2 in
  update_plugin_events X w' = (Return tt, w').
Proof.
  intros Hc w'.
  destruct (update_plugin_events_post w c Hc) as (_ & He & _ & Hb & _).
  fold w' in He, Hb.
  assert (Hs : forall n ty, n ∈ plugin_events ->
            update_plugin_event X n ty None 0 w' = (Return tt, w')).
  { intros n ty Hn. apply update_plugin_event_settled.
    rewrite He. by apply Hb. }
  unfold update_plugin_events.
  rewrite (bind_unit_eq _ _ w' w');
    [|apply Hs, list_elem_of_here].
  rewrite (bind_unit_eq _ _ w' w');
    [|apply Hs, list_elem_of_further, list_elem_of_here].
  apply Hs. do 2 apply list_elem_of_further. apply list_elem_of_here.
Qed.

(** X3: before [init_client] has assigned a client, [update_plugin_event]
    can only fail or do nothing: it returns normally exactly if the binding
    of the event already matches its listeners, raises AttributeError
    otherwise, and in both cases neither the bot, the table included, nor
    the trace has changed. *)
Theorem update_plugin_event_without_client name ty filters group (w : World Env) :
  client (w_bot w) = None ->
  let r := update_plugin_event X name ty filters group w in
  w_bot r.2 = w_bot w /\
  w_trace r.2 = w_trace w /\
  (r.1 = Return tt <->
   (is_Some (_plugin_event_handlers (w_bot w) !! name) <->
    name ∈ listeners X (w_env w))) /\
  (r.1 = Return tt \/ exists msg, r.1 = Raise (mkExc AttributeError msg)).
Proof.
  intros Hc r. subst r.
  destruct (update_plugin_event_no_client X name ty filters group w Hc) as [Hb Ht].
  split; [exact Hb|]. split; [exact Ht|].
  unfold update_plugin_event, mbind, M_bind, bind, get_env, get_bot.
  cbn beta iota.
  destruct (decide (name ∈ listeners X (w_env w))) as [Hl|Hl].
  - rewrite (bool_decide_eq_true_2 _ Hl).
    destruct (_ !! name) as [hg|] eqn:Hn.
    + split; [|by left]. split; [|done]. intros _. split; [done | by eexists].
    + unfold new_handler, add_handler, get_client, mbind, M_bind, bind, get_bot.
      cbn beta iota. cbn [w_bot]. rewrite Hc. cbn [fst]. split.
      * split; [done|]. intros Hiff. apply Hiff in Hl as [? ?]. done.
      * right. by eexists.
  - rewrite (bool_decide_eq_false_2 _ Hl).
    destruct (_ !! name) as [hg|] eqn:Hn.
    + unfold remove_handler, get_client, mbind, M_bind, bind, get_bot.
      cbn beta iota. rewrite Hc. cbn [fst]. split.
      * split; [done|]. intros Hiff. exfalso. apply Hl, Hiff. by eexists.
      * right. by eexists.
    + split; [|by left]. split; [|done]. intros _. split; [by intros [? ?] | done].
Qed.

End RegistryMore.

(** ** More on startup *)

Section StartupMore.
Context {Env : Type} (X : Collaborators Env).

(** What [start] leaves alone, relative to the bot [b0] it began with. *)
Definition start_frame (b0 b : Bot) : Prop :=
  _plugin_event_handlers b = _plugin_event_handlers b0 /\
  config b = config b0 /\
  _disconnect b = _disconnect b0 /\
  sudo_users b0 ⊆ sudo_users b.

Lemma start_frame_add_sudoers b0 ids :
  preserves (on_bot (start_frame b0)) (add_sudoers (Env:=Env) ids).
Proof.
  intros w (Ht & Hc & Hd & Hs). rewrite add_sudoers_eq.
  repeat split; try done. cbn. by apply union_subseteq_r'.
Qed.

Ltac frame :=
  repeat first
    [ apply preserves_bind; [|intros ?]
    | apply preserves_ret
    | apply preserves_raise
    | apply preserves_from_outcome
    | apply preserves_get_bot
    | apply preserves_get_env
    | apply on_bot_new_handler
    | apply on_bot_call
    | apply start_frame_add_sudoers
    | apply on_bot_modify; intros [] (?&?&?&?); by repeat split
    | apply preserves_try_except; [|intros ?]
    | match goal with
      | |- preserves _ (if ?b then _ else _) => destruct b
      | |- preserves _ (match ?x with _ => _ end) => destruct x
      end ].

Lemma start_keeps_frame (b0 : Bot) : preserves (on_bot (start_frame b0)) (start X).
Proof.
  unfold start, init_client, new_client, add_handler, call_, get_client, set_client,
    set_loaded, set_user, set_uid, set_owner, set_start_time_us.
  frame.
Qed.

End StartupMore.

(** ** A bound on the active count *)

Section ActiveCount.
Context {Env : Type} (X : Collaborators Env).

(** A step that touches none but the three events of
    [update_plugin_events]. *)
Definition builtin_step (s : Step Env) : Prop :=
  match s with
  | DoUpdatePluginEvent name _ _ _ => name ∈ plugin_events
  | _ => True
  end.

(** A call changes the binding of no event but its own. *)
Lemma update_plugin_event_others name ty filters group (w : World Env) n :
  n <> name ->
  _plugin_event_handlers (w_bot (update_plugin_event X name ty filters group w).2) !! n
  = _plugin_event_handlers (w_bot w) !! n.
Proof.
  intros Hn. destruct (client (w_bot w)) as [c|] eqn:Hc.
  - by apply (update_plugin_event_post X name ty filters group w c Hc).
  - destruct (update_plugin_event_no_client X name ty filters group w Hc) as [Hb _].
    by rewrite Hb.
Qed.

Definition only_plugin_events (w : World Env) : Prop :=
  forall n, n ∉ plugin_events -> _plugin_event_handlers (w_bot w) !! n = None.

Lemma only_plugin_events_update name ty filters group :
  name ∈ plugin_events ->
  preserves only_plugin_events (update_plugin_event X name ty filters group).
Proof.
  intros Hin w Hw n Hn. rewrite update_plugin_event_others; [by apply Hw|].
  intros ->. by apply Hn.
Qed.

Lemma only_plugin_events_steps (w : World Env) (steps : list (Step Env)) :
  Forall builtin_step steps ->
  only_plugin_events w -> only_plugin_events (steps_from X w steps).
Proof.
  intros Hsteps. revert w. induction Hsteps as [|s steps Hs _ IH]; intros w Hw; [done|].
  apply IH. destruct s; cbn [step].
  - by apply only_plugin_events_update.
  - unfold update_plugin_events. revert w Hw.
    change (preserves only_plugin_events
      (update_plugin_event X "callback_query" CallbackQueryHandler None 0;;
       update_plugin_event X "inline_query" InlineQueryHandler None 0;;
       update_plugin_event X "message" MessageHandler None 0)).
    repeat (apply preserves_bind; [|intros _]);
      apply only_plugin_events_update; unfold plugin_events.
    + apply list_elem_of_here.
    + apply list_elem_of_further, list_elem_of_here.
    + do 2 apply list_elem_of_further. apply list_elem_of_here.
  - exact Hw.
Qed.

(** X5: in a session whose steps touch only "callback_query",
    "inline_query" and "message", every binding of the table is for one of
    the three, and [events_activated] is at most 3. *)
Theorem events_activated_at_most_three (cfg : TelegramConfig) (env : Env)
    (steps : list (Step Env)) :
  Forall builtin_step steps ->
  let b := w_bot (session X cfg env steps) in
  dom (_plugin_event_handlers b) ⊆ list_to_set plugin_events /\
  events_activated b <= 3.
Proof.
  intros Hsteps b.
  assert (Hinv : only_plugin_events (session X cfg env steps)).
  { apply only_plugin_events_steps; [done|]. intros n _.
    destruct (start_keeps_frame X (init_bot cfg) (fresh_world cfg env)) as (-> & _);
      [by repeat split | apply lookup_empty]. }
  assert (Hdom : dom (_plugin_event_handlers b) ⊆@{gset string} list_to_set plugin_events).
  { intros n Hn. apply elem_of_list_to_set.
    destruct (decide (n ∈ plugin_events)) as [|Hout]; [done|].
    apply elem_of_dom in Hn as [hg Hhg]. unfold b in Hhg.
    by rewrite (Hinv n Hout) in Hhg. }
  split; [exact Hdom|].
  unfold events_activated. rewrite <- size_dom.
  etrans; [apply subseteq_size, Hdom|].
  rewrite size_list_to_set; [done|].
  refine (bool_decide_eq_true_1 (NoDup plugin_events) _). by vm_compute.
Qed.

End ActiveCount.

(** ** More on redaction *)

Section RedactionMore.

Lemma startswith_app (p r : string) : PyStr.startswith p (p +:+ r) = true.
Proof.
  induction p as [|a p IH]; simpl; [by destruct r|].
  by rewrite Ascii.eqb_refl.
Qed.

Lemma startswith_refl (p : string) : PyStr.startswith p p = true.
Proof. induction p as [|a p IH]; simpl; [done | by rewrite Ascii.eqb_refl]. Qed.

Lemma contains_startswith (p s : string) :
  PyStr.startswith p s = true -> PyStr.contains p s = true.
Proof. intros H. destruct s; simpl; by rewrite H. Qed.

Lemma contains_cons (p : string) (c : Ascii.ascii) (s : string) :
  PyStr.contains p s = true -> PyStr.contains p (String c s) = true.
Proof. intros H. simpl. rewrite H. apply orb_true_r. Qed.

(** Where [old] occurs, the replacement leaves [new]. *)
Lemma contains_replace (old new s : string) :
  PyStr.contains old s = true -> PyStr.contains new (PyStr.replace s old new) = true.
Proof.
  unfold PyStr.replace. induction s as [|c s IH].
  - destruct old; [|discriminate]. intros _. simpl.
    apply contains_startswith, startswith_refl.
  - intros H. cbn [PyStr.replace_from].
    destruct (PyStr.startswith old (String c s)) eqn:Hs.
    + apply contains_startswith, startswith_app.
    + apply contains_cons, IH.
      cbn [PyStr.contains] in H. by rewrite Hs in H.
Qed.

Lemma redact_one_keeps_placeholder (secret text : string) :
  PyStr.contains REDACTED text = true ->
  PyStr.contains REDACTED (redact_one secret text) = true.
Proof.
  intros H. unfold redact_one.
  destruct (PyStr.contains secret text) eqn:Hs; [by apply contains_replace | done].
Qed.

Lemma redact_one_marks (secret text : string) :
  PyStr.contains secret text = true ->
  PyStr.contains REDACTED (redact_one secret text) = true.
Proof. intros H. unfold redact_one. rewrite H. by apply contains_replace. Qed.

(** X6: a text in which none of the four secrets occurs comes out of
    [redact_message] unchanged. *)
Theorem redact_message_no_secret (cfg : TelegramConfig) (text : string) :
  PyStr.contains (api_id cfg) text = false ->
  PyStr.contains (api_hash cfg) text = false ->
  PyStr.contains (bot_token cfg) text = false ->
  PyStr.contains (db_uri cfg) text = false ->
  redact_message cfg text = text.
Proof.
  intros H1 H2 H3 H4. unfold redact_message.
  by rewrite (redact_one_absent _ _ H1), (redact_one_absent _ _ H2),
    (redact_one_absent _ _ H3), (redact_one_absent _ _ H4).
Qed.

(** X7: a text in which one of the four secrets occurs comes out of
    [redact_message] with the placeholder "[REDACTED]" in it. *)
Theorem redact_message_marks (cfg : TelegramConfig) (text : string) :
  PyStr.contains (api_id cfg) text || PyStr.contains (api_hash cfg) text ||
  PyStr.contains (bot_token cfg) text || PyStr.contains (db_uri cfg) text = true ->
  PyStr.contains REDACTED (redact_message cfg text) = true.
Proof.
  intros H. unfold redact_message.
  destruct (PyStr.contains (api_id cfg) text) eqn:H1.
  { by do 3 apply redact_one_keeps_placeholder; apply redact_one_marks. }
  rewrite (redact_one_absent _ _ H1).
  destruct (PyStr.contains (api_hash cfg) text) eqn:H2.
  { by do 2 apply redact_one_keeps_placeholder; apply redact_one_marks. }
  rewrite (redact_one_absent _ _ H2).
  destruct (PyStr.contains (bot_token cfg) text) eqn:H3.
  { by apply redact_one_keeps_placeholder, redact_one_marks. }
  rewrite (redact_one_absent _ _ H3).
  simpl in H. by apply redact_one_marks.
Qed.

(** *** Secrets that are gone for good *)

(** Character [a] occurs in [s]. *)
Fixpoint mentions (a : Ascii.ascii) (s : string) : bool :=
  match s with
  | EmptyString => false
  | String b s' => Ascii.eqb a b || mentions a s'
  end.

(** No character of [p] occurs in [s]. *)
Fixpoint disjoint_chars (p s : string) : bool :=
  match p with
  | EmptyString => true
  | String a p' => negb (mentions a s) && disjoint_chars p' s
  end.

(** An occurrence of [p] in [new +:+ t] that is not in [t] would begin with
    a character of [new]. *)
Lemma contains_app_disjoint (p new t : string) :
  disjoint_chars p new = true ->
  PyStr.contains p t = false -> PyStr.contains p (new +:+ t) = false.
Proof.
  intros Hd Ht. destruct p as [|a p]; [by destruct t|].
  cbn [disjoint_chars] in Hd. apply andb_prop in Hd as [Ha _].
  apply negb_true_iff in Ha.
  induction new as [|n new IH]; [done|].
  cbn [mentions] in Ha. apply orb_false_elim in Ha as [Han Ha].
  change (String n new +:+ t) with (String n (new +:+ t)).
  cbn [PyStr.contains PyStr.startswith]. rewrite Han.
  cbn [orb]. by apply IH.
Qed.

Lemma string_app_empty_r (s : string) : s +:+ "" = s.
Proof.
  induction s as [|c s IH]; [done|].
  change (String c s +:+ "") with (String c (s +:+ "")). by rewrite IH.
Qed.

Lemma contains_disjoint (p new : string) :
  p <> "" -> disjoint_chars p new = true -> PyStr.contains p new = false.
Proof.
  intros Hp Hd. rewrite <- (string_app_empty_r new).
  apply contains_app_disjoint; [done|]. by destruct p.
Qed.

(** A prefix of the replaced text that has no character of [new] is a
    prefix of the text. *)
Lemma startswith_replace_inv (old new p s : string) :
  new <> "" -> disjoint_chars p new = true ->
  PyStr.startswith p (PyStr.replace_from old new 0 s) = true ->
  PyStr.startswith p s = true.
Proof.
  intros Hnew. revert p. induction s as [|c s IH]; intros p Hd Hp.
  - destruct p as [|a p]; [done|]. exfalso.
    cbn [disjoint_chars] in Hd. apply andb_prop in Hd as [Ha _].
    apply negb_true_iff in Ha.
    destruct old; cbn [PyStr.replace_from] in Hp; [|done].
    destruct new as [|n new]; [done|].
    cbn [PyStr.startswith] in Hp. cbn [mentions] in Ha.
    apply orb_false_elim in Ha as [Han _]. by rewrite Han in Hp.
  - destruct p as [|a p]; [done|].
    pose proof Hd as Hd'. cbn [disjoint_chars] in Hd'.
    apply andb_prop in Hd' as [Ha Hdp]. apply negb_true_iff in Ha.
    cbn [PyStr.replace_from] in Hp.
    destruct (PyStr.startswith old (String c s)).
    + exfalso. destruct new as [|n new]; [done|].
      change (String n new +:+ ?x) with (String n (new +:+ x)) in Hp.
      cbn [PyStr.startswith] in Hp. cbn [mentions] in Ha.
      apply orb_false_elim in Ha as [Han _]. by rewrite Han in Hp.
    + cbn [PyStr.startswith] in Hp |- *. destruct (Ascii.eqb a c); [|done].
      by apply IH.
Qed.

Lemma startswith_cons_replace_inv (old new p : string) c s :
  new <> "" -> disjoint_chars p new = true ->
  PyStr.startswith p (String c (PyStr.replace_from old new 0 s)) = true ->
  PyStr.startswith p (String c s) = true.
Proof.
  intros Hnew Hd Hp. destruct p as [|a p]; [done|].
  cbn [disjoint_chars] in Hd. apply andb_prop in Hd as [_ Hd].
  cbn [PyStr.startswith] in Hp |- *. destruct (Ascii.eqb a c); [|done].
  by eapply startswith_replace_inv.
Qed.

(** What does not occur in the text and has no character of [new] does
    not occur in the replaced text. *)
Lemma replace_keeps_absent (old new p s : string) (k : nat) :
  new <> "" -> disjoint_chars p new = true ->
  PyStr.contains p s = false ->
  PyStr.contains p (PyStr.replace_from old new k s) = false.
Proof.
  intros Hnew Hd. revert k. induction s as [|c s IH]; intros k Hs.
  - destruct p as [|a p]; [done|].
    cbn [PyStr.replace_from]. destruct k, old; try done.
    by apply contains_disjoint.
  - assert (Hs' : PyStr.contains p s = false).
    { cbn [PyStr.contains] in Hs. by apply orb_false_elim in Hs as [_ ?]. }
    assert (Hc : PyStr.contains p (String c (PyStr.replace_from old new 0 s)) = false).
    { cbn [PyStr.contains]. rewrite (IH 0 Hs'), orb_false_r.
      destruct (PyStr.startswith p (String c (PyStr.replace_from old new 0 s))) eqn:Hp;
        [|done].
      apply startswith_cons_replace_inv in Hp; [|done..].
      cbn [PyStr.contains] in Hs. by rewrite Hp in Hs. }
    cbn [PyStr.replace_from]. destruct k as [|k]; [|by apply IH].
    destruct (PyStr.startswith old (String c s)); [|exact Hc].
    apply contains_app_disjoint; [done|].
    destruct (String.length old); [exact Hc | by apply IH].
Qed.

(** A secret with no character of [new] does not occur in the text in
    which it was replaced. *)
Lemma replace_removes (old new s : string) (k : nat) :
  old <> "" -> new <> "" -> disjoint_chars old new = true ->
  PyStr.contains old (PyStr.replace_from old new k s) = false.
Proof.
  intros Hold Hnew Hd. revert k. induction s as [|c s IH]; intros k.
  - destruct old as [|a old]; [done|]. by destruct k.
  - cbn [PyStr.replace_from]. destruct k as [|k]; [|by apply IH].
    destruct (PyStr.startswith old (String c s)) eqn:Hs.
    + apply contains_app_disjoint; [done|].
      destruct old as [|a old]; [done|]. cbn [String.length]. apply IH.
    + cbn [PyStr.contains]. rewrite (IH 0), orb_false_r.
      destruct (PyStr.startswith old (String c (PyStr.replace_from old new 0 s))) eqn:Hp;
        [|done].
      apply startswith_cons_replace_inv in Hp; [|done..]. congruence.
Qed.

Lemma redact_one_removes (secret text : string) :
  secret <> "" -> disjoint_chars secret REDACTED = true ->
  PyStr.contains secret (redact_one secret text) = false.
Proof.
  intros Hne Hd. unfold redact_one.
  destruct (PyStr.contains secret text) eqn:Hs; [|done].
  by apply replace_removes.
Qed.

Lemma redact_one_keeps_absent (secret p text : string) :
  disjoint_chars p REDACTED = true ->
  PyStr.contains p text = false ->
  PyStr.contains p (redact_one secret text) = false.
Proof.
  intros Hd Hp. unfold redact_one.
  destruct (PyStr.contains secret text); [|done].
  by apply replace_keeps_absent.
Qed.

(** X8: a configured secret that is not empty and has none of the
    characters of "[REDACTED]" is gone from whatever [redact_message]
    returns: it occurs nowhere in the result, whatever the text and the
    other three secrets are. *)
Theorem redact_message_removes (cfg : TelegramConfig) (text secret : string) :
  secret ∈ [api_id cfg; api_hash cfg; bot_token cfg; db_uri cfg] ->
  secret <> "" ->
  disjoint_chars secret REDACTED = true ->
  PyStr.contains secret (redact_message cfg text) = false.
Proof.
  intros Hin Hne Hd. unfold redact_message.
  apply elem_of_cons in Hin as [->|Hin].
  { do 3 (apply redact_one_keeps_absent; [done|]). by apply redact_one_removes. }
  apply elem_of_cons in Hin as [->|Hin].
  { do 2 (apply redact_one_keeps_absent; [done|]). by apply redact_one_removes. }
  apply elem_of_cons in Hin as [->|Hin].
  { apply redact_one_keeps_absent; [done|]. by apply redact_one_removes. }
  apply list_elem_of_singleton in Hin as ->.
  by apply redact_one_removes.
Qed.

End RedactionMore.

(** ** More on the client and on idling *)

Section IdleMore.
Context {Env : Type} (X : Collaborators Env).

(** X9: [init_client] returns normally exactly when the three credentials
    are all set and the constructor of the client accepts them, and then it
    has assigned the client built from them, in memory, and nothing else.
    When it raises, the world is as it was, and the exception is the
    RuntimeError of the first credential missing, in the order api_id,
    api_hash, bot_token, or else what the constructor raised. It makes no
    call either way. *)
Theorem init_client_returns_iff (w : World Env) :
  let cfg := config (w_bot w) in
  let c := mkClient ":memory:" (api_id cfg) (api_hash cfg) (bot_token cfg) in
  (forall w',
     init_client X w = (Return tt, w') <->
     api_id cfg <> "" /\ api_hash cfg <> "" /\ bot_token cfg <> "" /\
     client_init X c = None /\
     w' = mkWorld (with_client c (w_bot w)) (w_env w) (w_trace w) (w_next w)) /\
  (forall e w',
     init_client X w = (Raise e, w') ->
     w' = w /\
     ((api_id cfg = "" /\
       e = mkExc RuntimeError "API_ID environment variable not set") \/
      (api_id cfg <> "" /\ api_hash cfg = "" /\
       e = mkExc RuntimeError "API_HASH environment variable not set") \/
      (api_id cfg <> "" /\ api_hash cfg <> "" /\ bot_token cfg = "" /\
       e = mkExc RuntimeError "BOT_TOKEN environment variable not set") \/
      (api_id cfg <> "" /\ api_hash cfg <> "" /\ bot_token cfg <> "" /\
       client_init X c = Some e))).
Proof.
  intros cfg c. unfold init_client, new_client, set_client, mbind, M_bind, bind,
    get_bot, modify_bot, raise, mret, M_ret.
  cbn beta iota. fold cfg. fold c.
  destruct (PyStr.truthy (api_id cfg)) eqn:H1,
    (PyStr.truthy (api_hash cfg)) eqn:H2,
    (PyStr.truthy (bot_token cfg)) eqn:H3;
    cbn [negb];
    try destruct (client_init X c) as [e0|] eqn:Hc;
    rewrite ?truthy_true, ?truthy_false in *;
    (split; [intros w'; split;
              [intros [= <-] || discriminate
              |intros (Ha & Hb & Hd & He & ->)]
            |intros e w' [= <- <-] || discriminate]);
    try done; try (split; [done|]); tauto.
Qed.

(** The calls the handler makes for the signals of one sleep. *)
Definition signal_calls (sigs : list Signal) : list Call :=
  sigs ≫= fun s =>
    [Print; LogInfo ("Stop signal received ('" +:+ signal_name X s +:+ "').")].

Definition entries (b : Bot) (cs : list Call) : list Entry :=
  (fun c => mkEntry c b) <$> cs.

Lemma e_call_entries (b : Bot) (cs : list Call) : e_call <$> entries b cs = cs.
Proof.
  unfold entries. rewrite <- list_fmap_compose.
  induction cs as [|c cs IHcs]; [done|]. cbn. by rewrite IHcs.
Qed.

Lemma deliver_eq (sigs : list Signal) (d : bool) (w : World Env) :
  deliver X sigs d w =
  (Return (match sigs with [] => d | _ :: _ => true end),
   mkWorld (w_bot w) (w_env w)
           (w_trace w ++ entries (w_bot w) (signal_calls sigs)) (w_next w)).
Proof.
  revert d w. induction sigs as [|s sigs IH]; intros d w.
  - cbn. rewrite app_nil_r. by destruct w.
  - cbn [deliver]. erewrite mbind_return; [|reflexivity]. rewrite IH.
    cbn [w_bot w_env w_trace w_next]. f_equal; [by destruct sigs|].
    f_equal. by rewrite <- !app_assoc.
Qed.

(** The world after the three handlers have been set. *)
Definition signals_set (w : World Env) : World Env :=
  mkWorld (w_bot w) (w_env w)
    (w_trace w ++ entries (w_bot w)
       [SignalSignal SIGINT; SignalSignal SIGTERM; SignalSignal SIGABRT])
    (w_next w).

Lemma idle_eq (fuel : nat) (w : World Env) :
  idle X fuel w = idle_loop X fuel false (signals_set w).
Proof.
  unfold idle, signals_set, call_, mbind, M_bind, bind. rewrite !call_eq.
  unfold after_call. cbn [w_bot w_env w_trace w_next fst snd entries fmap list_fmap].
  by rewrite <- !app_assoc.
Qed.

(** One turn of the loop, when the sleep returns. *)
Lemma idle_loop_step (fuel : nat) (w : World Env) sigs env' :
  sleep X 1 (w_bot w) (w_env w) = (Return sigs, env') ->
  idle_loop X (S fuel) false w =
  idle_loop X fuel (match sigs with [] => false | _ :: _ => true end)
    (mkWorld (w_bot w) env'
       (w_trace w ++ entries (w_bot w) (Sleep 1 :: signal_calls sigs)) (w_next w)).
Proof.
  intros Hs. cbn [idle_loop].
  erewrite mbind_return; [|apply call_eq]. rewrite Hs. cbn [fst].
  erewrite mbind_return; [|reflexivity]. rewrite deliver_eq.
  unfold after_call. rewrite Hs. cbn [w_bot w_env w_trace w_next snd].
  by rewrite <- app_assoc.
Qed.

Lemma idle_loop_disconnected (fuel : nat) (w : World Env) :
  idle_loop X fuel true w = Some (Return tt, w).
Proof. by destruct fuel. Qed.

Lemma idle_loop_raise (fuel : nat) (w : World Env) e env' :
  sleep X 1 (w_bot w) (w_env w) = (Raise e, env') ->
  idle_loop X (S fuel) false w =
  Some (Raise e,
        mkWorld (w_bot w) env' (w_trace w ++ entries (w_bot w) [Sleep 1]) (w_next w)).
Proof.
  intros Hs. cbn [idle_loop].
  erewrite mbind_return; [|apply call_eq]. rewrite Hs. cbn [fst].
  erewrite mbind_raise; [|reflexivity].
  unfold after_call. by rewrite Hs.
Qed.

(** The three registrations. *)
Definition registrations : list Call :=
  [SignalSignal SIGINT; SignalSignal SIGTERM; SignalSignal SIGABRT].

(** X11: once [idle] has set its handlers, the first sleep during which a
    signal comes is the last: [idle] returns normally with one sleep in the
    trace and, for each signal delivered during it, an empty line printed
    and the stop message logged. *)
Theorem idle_stops_at_first_signal (fuel : nat) (w : World Env) s sigs env' :
  sleep X 1 (w_bot w) (w_env w) = (Return (s :: sigs), env') ->
  exists w',
    idle X (S fuel) w = Some (Return tt, w') /\
    w_bot w' = w_bot w /\ w_env w' = env' /\
    calls_since w w' = registrations ++ Sleep 1 :: signal_calls (s :: sigs).
Proof.
  intros Hs. rewrite idle_eq.
  rewrite (idle_loop_step fuel (signals_set w) (s :: sigs) env' Hs).
  rewrite idle_loop_disconnected. eexists. split; [reflexivity|].
  split; [done|]. split; [done|].
  unfold calls_since, signals_set. cbn [w_trace w_bot].
  by rewrite <- app_assoc, drop_app_length, fmap_app, !e_call_entries.
Qed.

(** X12: without a signal [idle] does not return: if, from the
    collaborators' state on, every sleep returns with no signal delivered,
    then no amount of fuel brings [idle] to an end. *)
Theorem idle_waits_for_a_signal (I : Env -> Prop) (w : World Env) :
  I (w_env w) ->
  (forall b env, I env -> exists env', sleep X 1 b env = (Return [], env') /\ I env') ->
  forall fuel, idle X fuel w = None.
Proof.
  intros HI Hquiet fuel. rewrite idle_eq.
  assert (H : forall w0, I (w_env w0) -> idle_loop X fuel false w0 = None).
  { induction fuel as [|fuel IH]; intros w0 H0; [done|].
    destruct (Hquiet (w_bot w0) (w_env w0) H0) as (env' & Hs & HI').
    rewrite (idle_loop_step _ _ _ _ Hs). by apply IH. }
  by apply H.
Qed.

End IdleMore.

(** ** The ways a startup fails after the plugins are loaded *)

Section StartPaths.
Context {Env : Type} (X : Collaborators Env).

(** The startup gets as far as starting the client: the credentials are
    set, the constructor of the client accepts them, the plugins load, the
    "load" event goes through and leaves the collaborators in state [env],
    and both mandatory plugins are there. *)
Definition reaches_connect (w : World Env) (env : Env) : Prop :=
  let cfg := config (w_bot w) in
  let b := bot_with_client (w_bot w) in
  api_id cfg <> "" /\ api_hash cfg <> "" /\ bot_token cfg <> "" /\
  client_init X (client_of_config cfg) = None /\
  exists env1,
    load_all_plugins X b (w_env w) = (Return tt, env1) /\
    dispatch_event X "load" [] b env1 = (Return tt, env) /\
    "Aria2" ∈ plugins X env /\ "GoogleDrive" ∈ plugins X env.

(** The bot when the client is started. *)
Definition bot_loaded (w : World Env) : Bot :=
  with_loaded true (bot_with_client (w_bot w)).

(** The calls up to and including the start of the client. *)
Definition calls_to_connect (w : World Env) : list Call :=
  [LogInfo "Starting";
   AddHandler (command_handler X (w_next w)) (-1);
   AddHandler (conversation_handler X (S (w_next w))) 0;
   LoadAllPlugins; DispatchEvent "load" []; ClientStart].

Definition authorization_hint : string :=
  "Unable to get input for authorization! Make sure all configuration are done before running the bot.".

Ltac step_pure :=
  erewrite mbind_return; [| first [reflexivity | eassumption]]; cbn beta iota.

Ltac step_call H :=
  erewrite mbind_return; [| apply call_eq];
  unfold after_call; cbn [w_bot w_env w_trace w_next];
  rewrite H; cbn [fst snd].

Ltac to_connect Hid Hhash Htok Hci Hload Hdisp Ha Hg :=
  unfold start;
  step_pure;
  (erewrite mbind_return; [| apply init_client_ok; assumption]); cbn beta;
  cbn [w_bot w_env w_trace w_next];
  do 4 step_pure;
  cbn [w_bot w_env w_trace w_next];
  step_call Hload; step_pure;
  step_call Hdisp; do 3 step_pure;
  cbn [w_bot w_env w_trace w_next];
  rewrite (bool_decide_eq_true_2 _ Ha), (bool_decide_eq_true_2 _ Hg);
  cbn [negb].

(** The [try] around the start of the client. *)
Lemma connect_block_eq (w : World Env) (c : Client) (msg : string) :
  client (w_bot w) = Some c ->
  try_except
    (_ ← get_client; o ← call ClientStart (client_start X); from_outcome o)
    AttributeError
    (fun e => call_ (LogError msg);; raise e) w =
  match (client_start X (w_bot w) (w_env w)).1 with
  | Return _ => (Return tt, after_call ClientStart (client_start X) w)
  | Raise e =>
      (Raise e,
       if isinstance e AttributeError then
         after_call (LogError msg) (fun _ env => (tt, env))
           (after_call ClientStart (client_start X) w)
       else after_call ClientStart (client_start X) w)
  end.
Proof.
  intros Hc. unfold try_except.
  erewrite mbind_return; [|unfold get_client, mbind, M_bind, bind, get_bot;
                           cbn beta iota; by rewrite Hc].
  rewrite call_outcome_eq.
  destruct (client_start X (w_bot w) (w_env w)).1 as [[]|e]; [done|].
  destruct (isinstance e AttributeError); [|done].
  unfold call_. erewrite mbind_return; [|apply call_eq]. done.
Qed.

(** X13: in a startup that has built its client and found both mandatory
    plugins, when starting the client fails, [start] raises the very exception
    the client raised, with [loaded] already set and nothing called after
    the client; if the exception is an AttributeError, the hint about the
    missing authorization input is logged as an error first, and only
    then. *)
Theorem start_connect_failure (w : World Env) (env env' : Env) (e : Exc) :
  reaches_connect w env ->
  client_start X (bot_loaded w) env = (Raise e, env') ->
  exists w',
    start X w = (Raise e, w') /\
    w_bot w' = bot_loaded w /\ w_env w' = env' /\
    calls_since w w' =
      calls_to_connect w ++
      (if isinstance e AttributeError then [LogError authorization_hint] else []).
Proof.
  intros (Hid & Hhash & Htok & Hci & env1 & Hload & Hdisp & Ha & Hg) Hconn.
  unfold bot_loaded, bot_with_client in *.
  to_connect Hid Hhash Htok Hci Hload Hdisp Ha Hg.
  erewrite mbind_raise;
    [|erewrite connect_block_eq by reflexivity;
      cbn [w_bot w_env]; rewrite Hconn; reflexivity].
  eexists. split; [reflexivity|].
  unfold after_call, calls_since.
  destruct (isinstance e AttributeError);
    cbn [w_bot w_env w_trace w_next]; rewrite Hconn; cbn [snd];
    (split; [done|]); (split; [done|]);
    rewrite <- !app_assoc; cbn [app]; by rewrite drop_app_length.
Qed.

(** The startup gets as far as asking who the bot is. *)
Definition reaches_identity (w : World Env) (env' : Env) : Prop :=
  exists env,
    reaches_connect w env /\
    client_start X (bot_loaded w) env = (Return tt, env').

(** The bot knows who it is: [get_me] returned the user [u]. *)
Definition identified (w : World Env) (u : User) (env' : Env) : Prop :=
  exists env,
    reaches_identity w env /\
    get_me X (bot_loaded w) env = (Return (Some u), env').

Definition bot_identified (w : World Env) (u : User) : Bot :=
  with_uid (user_id u) (with_user u (bot_loaded w)).

Ltac to_identity Hid Hhash Htok Hci Hload Hdisp Ha Hg Hconn :=
  to_connect Hid Hhash Htok Hci Hload Hdisp Ha Hg;
  (erewrite mbind_return;
    [|erewrite connect_block_eq by reflexivity;
      cbn [w_bot w_env]; rewrite Hconn; reflexivity]);
  unfold after_call; cbn [w_bot w_env w_trace w_next];
  rewrite Hconn; cbn [snd].

Ltac to_owner Hid Hhash Htok Hci Hload Hdisp Ha Hg Hconn Hme :=
  to_identity Hid Hhash Htok Hci Hload Hdisp Ha Hg Hconn;
  step_call Hme; do 4 step_pure;
  cbn [w_bot w_env w_trace w_next].

Ltac trace_done :=
  unfold calls_since; cbn [w_trace];
  rewrite <- !app_assoc; cbn [app]; by rewrite drop_app_length.

(** X14: in a startup that has built and started its client, when what
    [get_me] returns is not a user, [start] raises the
    TypeError "Missing full self user information": the client has been
    started, but neither [user] nor [uid] nor anything after them is
    assigned, and nothing is called after [get_me]. *)
Theorem start_without_identity (w : World Env) (env env' : Env) :
  reaches_identity w env ->
  get_me X (bot_loaded w) env = (Return None, env') ->
  exists w',
    start X w = (Raise (mkExc TypeError "Missing full self user information"), w') /\
    w_bot w' = bot_loaded w /\
    calls_since w w' = calls_to_connect w ++ [GetMe].
Proof.
  intros (env0 & (Hid & Hhash & Htok & Hci & env1 & Hload & Hdisp & Ha & Hg) & Hconn) Hme.
  unfold bot_loaded, bot_with_client in *.
  to_identity Hid Hhash Htok Hci Hload Hdisp Ha Hg Hconn.
  step_call Hme. step_pure.
  eexists. split; [reflexivity|]. split; [done|]. trace_done.
Qed.

(** X15: in a startup to which [get_me] has returned the user [u], when
    [owner_id] is not a number, [start] raises what [int]
    raises: [user] and [uid] are assigned by then, [owner] is not, and the
    sudoers are not read. *)
Theorem start_owner_id_not_a_number (w : World Env) (u : User) (env : Env) (e : Exc) :
  identified w u env ->
  int_of_str X (owner_id (config (w_bot w))) = Raise e ->
  exists w',
    start X w = (Raise e, w') /\
    w_bot w' = bot_identified w u /\
    owner (w_bot w') = owner (w_bot w) /\
    sudo_users (w_bot w') = sudo_users (w_bot w) /\
    calls_since w w' = calls_to_connect w ++ [GetMe].
Proof.
  intros (env3 & (env2 & (Hid & Hhash & Htok & Hci & env1 & Hload & Hdisp & Ha & Hg)
                   & Hconn) & Hme) Hint.
  unfold bot_identified, bot_loaded, bot_with_client in *.
  to_owner Hid Hhash Htok Hci Hload Hdisp Ha Hg Hconn Hme.
  change (int_of_str X (owner_id (config _)))
    with (int_of_str X (owner_id (config (w_bot w)))).
  rewrite Hint. erewrite mbind_raise; [|reflexivity].
  eexists. split; [reflexivity|]. do 3 (split; [done|]). trace_done.
Qed.

(** X16: in a startup to which [get_me] has returned the user [u], when
    the cursor over the sudoers fails after yielding [ids],
    [start] raises that failure. The ids read so far have been added to
    [sudo_users], the start time is not recorded, and neither "start" nor
    "started" is dispatched: the last call is the one on the database. *)
Theorem start_sudoers_cursor_fails (w : World Env) (u : User) (i : Z)
    (ids : list Z) (env env' : Env) (e : Exc) :
  identified w u env ->
  int_of_str X (owner_id (config (w_bot w))) = Return i ->
  db_find X "sudoers" (with_owner i (bot_identified w u)) env = ((ids, Some e), env') ->
  exists w',
    start X w = (Raise e, w') /\
    w_bot w' =
      with_sudo_users (list_to_set ids ∪ sudo_users (w_bot w))
        (with_owner i (bot_identified w u)) /\
    start_time_us (w_bot w') = start_time_us (w_bot w) /\
    calls_since w w' = calls_to_connect w ++ [GetMe; DbFind "sudoers"].
Proof.
  intros (env3 & (env2 & (Hid & Hhash & Htok & Hci & env1 & Hload & Hdisp & Ha & Hg)
                   & Hconn) & Hme) Hint Hdb.
  unfold bot_identified, bot_loaded, bot_with_client in *.
  to_owner Hid Hhash Htok Hci Hload Hdisp Ha Hg Hconn Hme.
  change (int_of_str X (owner_id (config _)))
    with (int_of_str X (owner_id (config (w_bot w)))).
  rewrite Hint. do 2 step_pure. cbn [w_bot w_env w_trace w_next].
  erewrite mbind_return; [|apply call_eq].
  unfold after_call; cbn [w_bot w_env w_trace w_next]. rewrite Hdb. cbn [fst snd].
  erewrite mbind_return; [|apply add_sudoers_eq]. cbn [w_bot w_env w_trace w_next].
  eexists. split; [reflexivity|]. do 2 (split; [done|]). trace_done.
Qed.

Lemma init_client_inv_credentials (w w1 : World Env) :
  init_client X w = (Return tt, w1) ->
  api_id (config (w_bot w)) <> "" /\ api_hash (config (w_bot w)) <> "" /\
  bot_token (config (w_bot w)) <> "" /\
  client_init X (client_of_config (config (w_bot w))) = None.
Proof.
  unfold init_client, new_client, mbind, M_bind, bind, get_bot, client_of_config.
  cbn beta iota.
  destruct (PyStr.truthy (api_id _)) eqn:H1; [|discriminate].
  destruct (PyStr.truthy (api_hash _)) eqn:H2; [|discriminate].
  destruct (PyStr.truthy (bot_token _)) eqn:H3; [|discriminate].
  cbn [negb]. destruct (client_init X _) eqn:Hc; [discriminate|]. intros _.
  rewrite truthy_true in H1, H2, H3. done.
Qed.

(** A call that returned, with the state it left the collaborators in. *)
Lemma call_returned {A B} (c : Call) (f : Bot -> Env -> Outcome A * Env)
    (k : A -> M Env B) w b w' :
  (o ← call c f; from_outcome o ≫= k) w = (Return b, w') ->
  exists a env1,
    f (w_bot w) (w_env w) = (Return a, env1) /\
    k a (mkWorld (w_bot w) env1 (w_trace w ++ [mkEntry c (w_bot w)]) (w_next w)) =
      (Return b, w').
Proof.
  intros H. apply call_outcome_inv in H as (a & Ha & H).
  exists a, (f (w_bot w) (w_env w)).2. split; [|exact H].
  rewrite <- Ha. apply surjective_pairing.
Qed.

(** X17: after a startup that succeeded the credentials are known to be
    set and the bot is ready: [client] is the client built from them,
    [loaded] is true, [user] is the user [u] that [get_me] returned, once
    the client had been built and started, and [uid] is the id of [u];
    [owner] is [owner_id] read as a number; [sudo_users] has gained the
    ids the cursor over the sudoers yielded, and the cursor did not fail;
    [start_time_us] is the time [usec] returned after that, the time that
    was dispatched with "start". *)
Theorem start_success_state (w w' : World Env) :
  start X w = (Return tt, w') ->
  let cfg := config (w_bot w) in
  let b' := w_bot w' in
  api_id cfg <> "" /\ api_hash cfg <> "" /\ bot_token cfg <> "" /\
  client b' = Some (mkClient ":memory:" (api_id cfg) (api_hash cfg) (bot_token cfg)) /\
  loaded b' = true /\
  exists (u : User) (i t : Z) (ids : list Z) (env env_db env_t : Env),
    identified w u env /\
    user b' = Some u /\ uid b' = Some (user_id u) /\
    int_of_str X (owner_id cfg) = Return i /\ owner b' = Some i /\
    db_find X "sudoers" (with_owner i (bot_identified w u)) env =
      ((ids, None), env_db) /\
    sudo_users b' = list_to_set ids ∪ sudo_users (w_bot w) /\
    usec X (with_sudo_users (list_to_set ids ∪ sudo_users (w_bot w))
              (with_owner i (bot_identified w u))) env_db = (Return t, env_t) /\
    start_time_us b' = Some t /\
    DispatchEvent "start" [t] ∈ calls_since w w'.
Proof.
  unfold start. intros H.
  apply mbind_inv in H as ([] & w1 & Hlog & H).
  injection Hlog as <-.
  apply mbind_inv in H as ([] & w2 & Hinit & H).
  pose proof (init_client_inv_credentials _ _ Hinit) as (Hid & Hhash & Htok & Hci).
  apply init_client_inv in Hinit as ->. cbn [w_bot w_env w_trace w_next] in *.
  apply mbind_inv in H as (h1 & w3 & [= <- <-] & H).
  apply mbind_inv in H as ([] & w4 & [= <-] & H).
  apply mbind_inv in H as (h2 & w5 & [= <- <-] & H).
  apply mbind_inv in H as ([] & w6 & [= <-] & H).
  cbn [w_bot w_env w_trace w_next] in H.
  apply call_returned in H as ([] & env1 & Hload & H).
  cbn [w_bot w_env w_trace w_next] in Hload, H.
  apply call_returned in H as ([] & env2 & Hdisp & H).
  cbn [w_bot w_env w_trace w_next] in Hdisp, H.
  apply mbind_inv in H as ([] & w7 & [= <-] & H).
  apply mbind_inv in H as (env & w8 & [= <- <-] & H).
  cbn [w_bot w_env w_trace w_next] in H.
  destruct (bool_decide ("Aria2" ∈ _)) eqn:Ha; [|discriminate].
  destruct (bool_decide ("GoogleDrive" ∈ _)) eqn:Hg; [|discriminate].
  apply bool_decide_eq_true_1 in Ha, Hg.
  cbn [negb] in H.
  apply mbind_inv in H as ([] & w9 & Hconn & H).
  apply try_except_reraise_inv in Hconn.
  apply mbind_inv in Hconn as (c & w10 & [= <- <-] & Hconn).
  rewrite call_outcome_eq in Hconn. unfold after_call in Hconn.
  cbn [w_bot w_env w_trace w_next] in Hconn.
  match type of Hconn with
  | context [client_start X ?b ?e] =>
      destruct (client_start X b e) as [o3 env3] eqn:Hstart
  end.
  cbn [fst snd] in Hconn. injection Hconn as -> <-.
  apply call_returned in H as ([u|] & env4 & Hme & H); [|discriminate].
  cbn [w_bot w_env w_trace w_next] in Hme, H.
  apply mbind_inv in H as ([] & w11 & [= <-] & H).
  apply mbind_inv in H as ([] & w12 & [= <-] & H).
  apply mbind_inv in H as (b & w13 & [= <- <-] & H).
  apply mbind_inv in H as (i & w14 & Hint & H).
  apply from_outcome_inv in Hint as [Hint ->].
  apply mbind_inv in H as ([] & w15 & [= <-] & H).
  apply mbind_inv in H as ([ids fail] & w16 & Hfind & H).
  apply call_inv in Hfind as [Hdb ->].
  unfold after_call in H. cbn [w_bot w_env w_trace w_next] in H, Hdb.
  apply mbind_inv in H as ([] & w17 & Hadd & H).
  rewrite add_sudoers_eq in Hadd. injection Hadd as <-.
  cbn [fst snd] in H. destruct fail as [e|]; [discriminate|].
  cbn [w_bot w_env w_trace w_next] in H.
  apply call_returned in H as (t & env6 & Husec & H).
  cbn [w_bot w_env w_trace w_next] in Husec, H.
  apply mbind_inv in H as ([] & w18 & [= <-] & H).
  apply call_outcome_inv in H as ([] & _ & H).
  apply mbind_inv in H as ([] & w19 & [= <-] & H).
  rewrite call_outcome_eq in H. injection H as _ <-.
  unfold after_call in *. cbn [w_bot w_env w_trace w_next] in *.
  cbn zeta. do 5 (split; [done|]).
  exists u, i, t, ids, env4,
    (db_find X "sudoers"
       (with_owner i (with_uid (user_id u) (with_user u
          (with_loaded true (bot_with_client (w_bot w)))))) env4).2, env6.
  split.
  { exists env3. split; [|exact Hme].
    exists env2. split; [|exact Hstart].
    do 4 (split; [done|]). exists env1. done. }
  do 2 (split; [done|]). split; [exact Hint|]. split; [done|].
  split.
  { unfold bot_identified, bot_loaded. rewrite Hdb. apply surjective_pairing. }
  split; [done|]. split; [exact Husec|]. split; [done|].
  unfold calls_since. cbn [w_trace]. rewrite <- !app_assoc. cbn [app].
  rewrite drop_app_length. cbn.
  do 9 apply list_elem_of_further. apply list_elem_of_here.
Qed.

End StartPaths.

(** ** The order of the calls of a startup, however it ends *)

Section StartOrder.
Context {Env : Type} (X : Collaborators Env).

(** The calls of a startup that succeeds, [t] being the start time. *)
Definition startup_calls (w : World Env) (t : Z) : list Call :=
  calls_to_connect X w ++
  [GetMe; DbFind "sudoers"; Usec;
   DispatchEvent "start" [t]; LogInfo "Bot is ready";
   DispatchEvent "started" []].

Lemma init_client_raise_inv (w w1 : World Env) (e : Exc) :
  init_client X w = (Raise e, w1) -> w1 = w.
Proof.
  unfold init_client, new_client, mbind, M_bind, bind, get_bot. cbn beta iota.
  destruct (PyStr.truthy (api_id _)); cbn [negb]; [|by intros [= _ <-]].
  destruct (PyStr.truthy (api_hash _)); cbn [negb]; [|by intros [= _ <-]].
  destruct (PyStr.truthy (bot_token _)); [|by intros [= _ <-]].
  destruct (client_init X _); [by intros [= _ <-] | discriminate].
Qed.

Ltac pure_in H :=
  erewrite mbind_return in H; [| first [reflexivity | eassumption]];
  cbn beta iota in H.

Ltac exit_with t H :=
  injection H as <- <-; exists t; left;
  unfold calls_since, startup_calls, calls_to_connect, command_handler,
    conversation_handler, starting;
  cbn [w_trace]; rewrite <- ?app_assoc; cbn [app]; rewrite drop_app_length;
  cbn [fmap list_fmap e_call]; eexists; reflexivity.

Ltac call_in H t :=
  (erewrite mbind_return in H; [| apply call_eq]);
  unfold after_call in H; cbn [w_bot w_env w_trace w_next] in H;
  match type of H with
  | context [from_outcome (?f ?b ?e).1] =>
      destruct (f b e) as [[?|?] ?]
  end;
  cbn [fst snd] in H;
  [pure_in H | (erewrite mbind_raise in H; [|reflexivity]); exit_with t H].

(** X18: however a startup ends, the calls it has made are the first so
    many of the calls of a startup that succeeds, in the same order; the one
    exception is the hint logged as an error right after the client failed
    to start. So nothing is ever called out of turn: no plugin is loaded
    before the two core handlers are installed, the client is not started
    before "load" is dispatched, and "start" is not dispatched before the
    sudoers are read. *)
Theorem start_calls_in_order (w w' : World Env) (o : Outcome unit) :
  start X w = (o, w') ->
  exists t,
    calls_since w w' `prefix_of` startup_calls w t \/
    calls_since w w' = calls_to_connect X w ++ [LogError authorization_hint].
Proof.
  unfold start. intros H.
  pure_in H.
  destruct (init_client X (starting w)) as [[[]|e] w1] eqn:Hinit.
  2:{ erewrite mbind_raise in H; [|exact Hinit].
      apply init_client_raise_inv in Hinit as ->. exit_with 0%Z H. }
  erewrite mbind_return in H; [|exact Hinit]. cbn beta in H.
  apply init_client_inv in Hinit as ->.
  cbn [w_bot w_env w_trace w_next starting] in H.
  do 4 pure_in H. cbn [w_bot w_env w_trace w_next] in H.
  call_in H 0%Z.
  call_in H 0%Z.
  do 2 pure_in H. cbn [w_bot w_env w_trace w_next] in H.
  destruct (bool_decide ("Aria2" ∈ _)); cbn [negb] in H; [|exit_with 0%Z H].
  destruct (bool_decide ("GoogleDrive" ∈ _)); cbn [negb] in H; [|exit_with 0%Z H].
  match type of H with
  | (try_except _ _ _ ≫= _) ?W = _ =>
      pose proof (connect_block_eq X W _ authorization_hint eq_refl) as Hblk
  end.
  cbn [w_bot w_env] in Hblk.
  match type of Hblk with
  | context [(client_start X ?b ?e).1] =>
      destruct (client_start X b e) as [[[]|ex] env3] eqn:Hconn
  end; cbn [fst] in Hblk.
  2:{ erewrite mbind_raise in H; [|exact Hblk]. injection H as <- <-.
      unfold after_call. cbn [w_bot w_env]. rewrite Hconn. cbn [snd].
      destruct (isinstance ex AttributeError).
      - exists 0%Z. right.
        unfold calls_since, calls_to_connect, command_handler, conversation_handler.
        cbn [w_trace]. rewrite <- ?app_assoc. cbn [app].
        by rewrite drop_app_length.
      - exists 0%Z. left.
        unfold calls_since, startup_calls, calls_to_connect, command_handler,
          conversation_handler.
        cbn [w_trace]. rewrite <- ?app_assoc. cbn [app]. rewrite drop_app_length.
        cbn [fmap list_fmap e_call]. eexists. reflexivity. }
  erewrite mbind_return in H; [|exact Hblk]. cbn beta in H. clear Hblk.
  unfold after_call in H. cbn [w_bot w_env w_trace w_next] in H.
  rewrite Hconn in H. cbn [snd] in H.
  call_in H 0%Z.
  match type of H with
  | context [match ?u with Some _ => _ | None => _ end] => destruct u as [u|]
  end; [|exit_with 0%Z H].
  do 3 pure_in H. cbn [w_bot w_env w_trace w_next] in H.
  match type of H with
  | context [from_outcome (int_of_str X ?x)] =>
      destruct (int_of_str X x) as [i|ex]
  end; [|erewrite mbind_raise in H; [|reflexivity]; exit_with 0%Z H].
  do 2 pure_in H. cbn [w_bot w_env w_trace w_next] in H.
  erewrite mbind_return in H; [|apply call_eq].
  unfold after_call in H. cbn [w_bot w_env w_trace w_next] in H.
  match type of H with
  | context [(db_find X ?c ?b ?e).1] =>
      destruct (db_find X c b e) as [[ids fail] env5]
  end; cbn [fst snd] in H.
  erewrite mbind_return in H; [|apply add_sudoers_eq]. cbn beta in H.
  cbn [w_bot w_env w_trace w_next] in H.
  destruct fail as [ex|]; [exit_with 0%Z H|].
  (erewrite mbind_return in H; [| apply call_eq]);
  unfold after_call in H; cbn [w_bot w_env w_trace w_next] in H.
  match type of H with
  | context [from_outcome (usec X ?b ?e).1] =>
      destruct (usec X b e) as [[t|ex] env6]
  end; cbn [fst snd] in H;
    [|erewrite mbind_raise in H; [|reflexivity]; exit_with 0%Z H].
  do 2 pure_in H. cbn [w_bot w_env w_trace w_next] in H.
  call_in H t.
  pure_in H. cbn [w_bot w_env w_trace w_next] in H.
  rewrite call_outcome_eq in H. unfold after_call in H.
  cbn [w_bot w_env w_trace w_next] in H.
  exit_with t H.
Qed.

End StartOrder.

(** ** More on the run sequence and on responding *)

Section RunMore.
Context {Env : Type} (X : Collaborators Env).

(** X19: a failure of the teardown replaces whatever the run was about to
    end with. When the body of [run] has ended with [o1] (returned, or was
    about to raise), [stop] and then [loop.stop()] are called with the bot as
    the body left it; if [loop.stop()] raises, [run] raises that; else if
    [stop] raised, [run] raises that; only when both return does [run] end
    with [o1]. *)
Theorem teardown_failure_replaces_outcome (fuel : nat) (w w1 : World Env)
    (o1 : Outcome unit) :
  run_body X fuel w = Some (o1, w1) ->
  let stopped := stop X (w_bot w1) (w_env w1) in
  let halted := loop_stop X (w_bot w1) stopped.2 in
  exists o w',
    run X fuel w = Some (o, w') /\
    w_bot w' = w_bot w1 /\ w_env w' = halted.2 /\
    w_trace w' = w_trace w1 ++ [mkEntry Stop (w_bot w1); mkEntry LoopStop (w_bot w1)] /\
    (forall e, halted.1 = Raise e -> o = Raise e) /\
    (forall e, halted.1 = Return tt -> stopped.1 = Raise e -> o = Raise e) /\
    (halted.1 = Return tt -> stopped.1 = Return tt -> o = o1).
Proof.
  intros Hb stopped halted. rewrite run_eq, Hb. eexists _, _.
  split; [reflexivity|]. unfold after_teardown, after_call, teardown_outcome.
  cbn [w_bot w_env w_trace]. fold stopped. fold halted.
  split; [done|]. split; [done|]. split; [by rewrite <- app_assoc|].
  destruct halted.1 as [[]|e3], stopped.1 as [[]|e2]; repeat split; congruence.
Qed.

(** X20: whatever its arguments, [respond] leaves the bot as it is and
    makes at most one call: none when it raises for an unknown mode,
    otherwise either a reply to [msg] or an edit of the prior response it
    was given, never both and never on another message; the keyword
    arguments are passed on as they came. *)
Theorem respond_at_most_one_call (w : World Env) (msg : Message) (text : string)
    (args : RespondArgs) :
  let r := respond X msg text args w in
  w_bot r.2 = w_bot w /\
  w_next r.2 = w_next w /\
  (calls_since w r.2 = [] /\ r.2 = w /\
   (exists m, r.1 = Raise (mkExc ValueError m)) \/
   exists text',
     calls_since w r.2 = [Reply msg text' (arg_kwargs args)] \/
     exists prior,
       arg_response args = Some prior /\
       calls_since w r.2 = [Edit prior text' (arg_kwargs args)]).
Proof.
  intros r. subst r.
  assert (Hone : forall c (f : Bot -> Env -> Outcome Message * Env),
            calls_since w (after_call c f w) = [c]).
  { intros c f. unfold calls_since, after_call. cbn [w_trace].
    by rewrite drop_app_length. }
  destruct (decide (default "edit" (arg_mode args) = "reply")) as [Hr|Hr].
  { rewrite respond_reply by by left. cbn [snd].
    split; [done|]. split; [done|]. right. eexists. left. apply Hone. }
  destruct (decide (default "edit" (arg_mode args) = "edit")) as [He|He].
  - destruct (arg_response args) as [prior|] eqn:Hp.
    + erewrite respond_edit by done. cbn [snd].
      split; [done|]. split; [done|]. right. eexists. right.
      exists prior. split; [done|]. apply Hone.
    + rewrite respond_reply by by right. cbn [snd].
      split; [done|]. split; [done|]. right. eexists. left. apply Hone.
  - rewrite respond_unknown_mode by done. cbn [fst snd].
    split; [done|]. split; [done|]. left.
    split; [unfold calls_since; by rewrite drop_all|]. split; [done | by eexists].
Qed.

End RunMore.

(** ** The further properties on test doubles *)

Module Doubles.

(** A double whose client, identity, number parser and cursor answer as
    told. *)
Definition make (connect : Outcome unit) (me : Outcome (option User))
    (number : Outcome Z) (cursor : list Z * option Exc) : Collaborators Mock.Env :=
  {| plugins := Mock.m_plugins;
     listeners := Mock.m_listeners;
     command_predicate := CommandPredicate;
     conversation_predicate := ConversationPredicate;
     client_init := Mock.check_client;
     load_all_plugins := Mock.ok tt;
     dispatch_event := fun _ _ => Mock.ok tt;
     client_start := fun _ env => (connect, env);
     get_me := fun _ env => (me, env);
     db_find := fun _ _ env => (cursor, env);
     usec := Mock.ok 1000%Z;
     sleep := sleep Mock.X;
     stop := Mock.ok tt;
     loop_stop := Mock.ok tt;
     reply := reply Mock.X;
     edit := edit Mock.X;
     int_of_str := fun _ => number;
     signal_name := signal_name Mock.X;
     truncate := fun s => s |}.

Definition w0 : World Mock.Env := fresh_world Mock.cfg Mock.env0.

Definition me : User := mkUser 99.

Lemma reaches_connect_w0 connect who number cursor :
  reaches_connect (make connect who number cursor) w0 Mock.env0.
Proof.
  split; [discriminate|]. split; [discriminate|]. split; [discriminate|].
  split; [reflexivity|].
  exists Mock.env0. split; [reflexivity|]. split; [reflexivity|]. split.
  - refine (bool_decide_eq_true_1 _ _). vm_compute. reflexivity.
  - refine (bool_decide_eq_true_1 _ _). vm_compute. reflexivity.
Defined.

Lemma identified_w0 number cursor :
  identified (make (Return tt) (Return (Some me)) number cursor) w0 me Mock.env0.
Proof.
  exists Mock.env0. split; [|reflexivity].
  exists Mock.env0. split; [apply reaches_connect_w0 | reflexivity].
Defined.

Definition no_input : Exc := mkExc AttributeError "'NoneType' object has no attribute 'isatty'".
Definition bad_number : Exc := mkExc ValueError "invalid literal for int()".
Definition lost : Exc := mkExc (DerivedExc "ConnectionFailure" Exception) "connection lost".

Lemma start_connect_failure_witness :
  exists w',
    start (make (Raise no_input) (Return (Some me)) (Return 1%Z) ([], None)) w0
      = (Raise no_input, w') /\
    loaded (w_bot w') = true /\
    last (calls_since w0 w') = Some (LogError authorization_hint).
Proof.
  destruct (start_connect_failure
              (make (Raise no_input) (Return (Some me)) (Return 1%Z) ([], None))
              w0 Mock.env0 Mock.env0 no_input
              (reaches_connect_w0 _ _ _ _) eq_refl)
    as (w' & Hs & Hb & He & Hc).
  exists w'. split; [exact Hs|]. split.
  - rewrite Hb. reflexivity.
  - rewrite Hc. reflexivity.
Defined.

Lemma start_without_identity_witness :
  exists w',
    start (make (Return tt) (Return None) (Return 1%Z) ([], None)) w0
      = (Raise (mkExc TypeError "Missing full self user information"), w') /\
    user (w_bot w') = None /\
    last (calls_since w0 w') = Some GetMe.
Proof.
  destruct (start_without_identity
              (make (Return tt) (Return None) (Return 1%Z) ([], None))
              w0 Mock.env0 Mock.env0)
    as (w' & Hs & Hb & Hc).
  - exists Mock.env0. split; [apply reaches_connect_w0 | reflexivity].
  - reflexivity.
  - exists w'. split; [exact Hs|]. split.
    + rewrite Hb. reflexivity.
    + rewrite Hc. reflexivity.
Defined.

Lemma start_owner_id_not_a_number_witness :
  exists w',
    start (make (Return tt) (Return (Some me)) (Raise bad_number) ([], None)) w0
      = (Raise bad_number, w') /\
    uid (w_bot w') = Some 99%Z /\ owner (w_bot w') = None.
Proof.
  destruct (start_owner_id_not_a_number
              (make (Return tt) (Return (Some me)) (Raise bad_number) ([], None))
              w0 me Mock.env0 bad_number (identified_w0 _ _) eq_refl)
    as (w' & Hs & Hb & Ho & _).
  exists w'. split; [exact Hs|]. split.
  - rewrite Hb. reflexivity.
  - rewrite Ho. reflexivity.
Defined.

Lemma start_sudoers_cursor_fails_witness :
  exists w',
    start (make (Return tt) (Return (Some me)) (Return 1%Z) ([7%Z], Some lost)) w0
      = (Raise lost, w') /\
    sudo_users (w_bot w') = {[7%Z]} /\
    start_time_us (w_bot w') = None.
Proof.
  destruct (start_sudoers_cursor_fails
              (make (Return tt) (Return (Some me)) (Return 1%Z) ([7%Z], Some lost))
              w0 me 1%Z [7%Z] Mock.env0 Mock.env0 lost
              (identified_w0 _ _) eq_refl eq_refl)
    as (w' & Hs & Hb & Ht & _).
  exists w'. split; [exact Hs|]. split.
  - rewrite Hb. vm_compute. reflexivity.
  - rewrite Ht. reflexivity.
Defined.

End Doubles.

Module MoreExamples.

(** The started double, with a plugin listening to "message". *)
Definition w_listening : World Mock.Env :=
  set_env (Mock.with_listeners {["message"]}) (start Mock.X Doubles.w0).2.

Lemma w_listening_client :
  client (w_bot w_listening) = Some (client_of_config Mock.cfg).
Proof. vm_compute. reflexivity. Defined.

Lemma update_plugin_events_reconciles_witness :
  (update_plugin_events Mock.X w_listening).1 = Return tt /\
  dom (_plugin_event_handlers (w_bot (update_plugin_events Mock.X w_listening).2))
    = {["message"]}.
Proof.
  destruct (update_plugin_events_reconciles Mock.X w_listening _ w_listening_client)
    as (Ho & _ & _ & _ & Hdom).
  split; [exact Ho|]. rewrite Hdom. vm_compute. reflexivity.
Defined.

Lemma update_plugin_events_idempotent_witness :
  update_plugin_events Mock.X (update_plugin_events Mock.X w_listening).2
  = (Return tt, (update_plugin_events Mock.X w_listening).2).
Proof.
  exact (update_plugin_events_idempotent Mock.X w_listening _ w_listening_client).
Defined.

(** A bot that was never started, with a plugin listening to "message". *)
Definition w_unstarted : World Mock.Env :=
  fresh_world Mock.cfg (Mock.with_listeners {["message"]}).

Lemma update_plugin_event_without_client_witness :
  w_bot (update_plugin_event Mock.X "message" MessageHandler None 0 w_unstarted).2
    = w_bot w_unstarted /\
  w_trace (update_plugin_event Mock.X "message" MessageHandler None 0 w_unstarted).2
    = w_trace w_unstarted.
Proof.
  destruct (update_plugin_event_without_client Mock.X "message" MessageHandler None 0
              w_unstarted eq_refl) as (Hb & Ht & _).
  split; [exact Hb | exact Ht].
Defined.

Lemma events_activated_at_most_three_witness :
  events_activated (w_bot (session Mock.X Mock.cfg Mock.env0 Examples.listening)) <= 3.
Proof.
  apply (events_activated_at_most_three Mock.X Mock.cfg Mock.env0 Examples.listening).
  repeat constructor.
Defined.

Lemma redact_message_no_secret_witness :
  redact_message Mock.cfg "hello" = "hello".
Proof. apply redact_message_no_secret; reflexivity. Defined.

Lemma redact_message_marks_witness :
  PyStr.contains REDACTED (redact_message Mock.cfg "id 12345") = true.
Proof. apply redact_message_marks. reflexivity. Defined.

Lemma redact_message_removes_witness :
  PyStr.contains "12345" (redact_message Mock.cfg "a12345b 777:AAbbCC") = false.
Proof.
  apply (redact_message_removes Mock.cfg "a12345b 777:AAbbCC" "12345").
  - apply list_elem_of_here.
  - discriminate.
  - reflexivity.
Defined.

(** A configuration whose [api_id] is not a number. *)
Definition cfg_abc : TelegramConfig :=
  {| api_id := "abc"; api_hash := "0a1b2c3d"; bot_token := "777:AAbbCC";
     db_uri := "mongodb://db"; owner_id := "1" |}.

Lemma init_client_returns_iff_witness :
  init_client Mock.X Doubles.w0 =
  (Return tt,
   mkWorld
     (with_client (mkClient ":memory:" "12345" "0a1b2c3d" "777:AAbbCC")
        (w_bot Doubles.w0))
     Mock.env0 [] 0) /\
  (forall w', init_client Mock.X (fresh_world cfg_abc Mock.env0) <> (Return tt, w')) /\
  (init_client Mock.X (fresh_world cfg_abc Mock.env0)).1 =
    Raise (mkExc ValueError "invalid literal for int() with base 10").
Proof.
  split; [|split].
  - apply (proj1 (init_client_returns_iff Mock.X Doubles.w0)).
    split; [discriminate|]. split; [discriminate|]. split; [discriminate|].
    split; reflexivity.
  - intros w' H.
    apply (proj1 (init_client_returns_iff Mock.X (fresh_world cfg_abc Mock.env0))) in H
      as (_ & _ & _ & Hc & _).
    discriminate Hc.
  - destruct (proj2 (init_client_returns_iff Mock.X (fresh_world cfg_abc Mock.env0))
                (mkExc ValueError "invalid literal for int() with base 10")
                (fresh_world cfg_abc Mock.env0)) as [_ _]; reflexivity.
Defined.

Definition w_interrupted : World Mock.Env :=
  fresh_world Mock.cfg (Mock.mkEnv ∅ ∅ [[SIGINT]]).

Lemma idle_stops_at_first_signal_witness :
  exists w',
    idle Mock.X 1 w_interrupted = Some (Return tt, w') /\
    calls_since w_interrupted w' =
      [SignalSignal SIGINT; SignalSignal SIGTERM; SignalSignal SIGABRT;
       Sleep 1; Print; LogInfo "Stop signal received ('SIGINT')."].
Proof.
  destruct (idle_stops_at_first_signal Mock.X 0 w_interrupted SIGINT []
              (Mock.mkEnv ∅ ∅ []) eq_refl)
    as (w' & Hi & _ & _ & Hc).
  exists w'. split; [exact Hi|]. rewrite Hc. reflexivity.
Defined.

Definition w_quiet : World Mock.Env := fresh_world Mock.cfg (Mock.mkEnv ∅ ∅ []).

Lemma idle_waits_for_a_signal_witness : idle Mock.X 50 w_quiet = None.
Proof.
  apply (idle_waits_for_a_signal Mock.X (fun env => Mock.m_signals env = [])).
  - reflexivity.
  - intros b env H. exists env. cbn. rewrite H. split; reflexivity.
Defined.

Lemma start_success_state_witness :
  loaded (w_bot (start Mock.X Doubles.w0).2) = true /\
  client (w_bot (start Mock.X Doubles.w0).2) =
    Some (mkClient ":memory:" "12345" "0a1b2c3d" "777:AAbbCC") /\
  user (w_bot (start Mock.X Doubles.w0).2) = Some (mkUser 99) /\
  start_time_us (w_bot (start Mock.X Doubles.w0).2) = Some 1000%Z.
Proof.
  destruct (start_success_state Mock.X Doubles.w0 _ Examples.start_ok)
    as (_ & _ & _ & Hc & Hl & u & i & t & ids & env & env_db & env_t
        & (env3 & _ & Hme) & Hu & _ & _ & _ & _ & _ & Husec & Ht & _).
  split; [exact Hl|]. split; [exact Hc|].
  injection Hme as <- _. injection Husec as <- _.
  split; [exact Hu | exact Ht].
Defined.

Lemma start_calls_in_order_witness :
  exists t,
    calls_since Doubles.w0 (start Mock.X Doubles.w0).2
      `prefix_of` startup_calls Mock.X Doubles.w0 t \/
    calls_since Doubles.w0 (start Mock.X Doubles.w0).2 =
      calls_to_connect Mock.X Doubles.w0 ++ [LogError authorization_hint].
Proof.
  exact (start_calls_in_order Mock.X Doubles.w0 _ _ Examples.start_ok).
Defined.

Definition ran : World Mock.Env :=
  match run_body Mock.X 5 Doubles.w0 with
  | Some p => p.2
  | None => Doubles.w0
  end.

Lemma teardown_failure_replaces_outcome_witness :
  exists w', run Mock.X 5 Doubles.w0 = Some (Return tt, w') /\
             w_bot w' = w_bot ran.
Proof.
  assert (H : run_body Mock.X 5 Doubles.w0 = Some (Return tt, ran))
    by (vm_compute; reflexivity).
  destruct (teardown_failure_replaces_outcome Mock.X 5 Doubles.w0 ran (Return tt) H)
    as (o & w' & Hr & Hb & _ & _ & _ & _ & Ho).
  exists w'. rewrite Hr, (Ho eq_refl eq_refl). split; [reflexivity | exact Hb].
Defined.

End MoreExamples.
